(** * Financial insight dashboard: the generation pipeline of [dashboard.py]

    A shallow embedding of the functions of [src/dashboard.py] that turn
    quarterly records into prompts, narrative panels and an executed
    visualisation program, followed by the properties established about
    them.  Definitions come first (text, sanitizer, frames, metric
    derivation, the effectful pipeline), theorems afterwards. *)

From Stdlib Require Import ZArith NArith List Bool Ascii String Lia.
From Stdlib Require Import Floats.SpecFloat.
From Stdlib Require Import DecimalN.
From stdpp Require Import base option list strings gmap.

Set Default Proof Using "Type".
Local Open Scope N_scope.

(* ===================================================================== *)
(** * Python text *)
(* ===================================================================== *)

(** A Python [str] is a sequence of Unicode code points.  Source literals
    are ASCII and are written [py "..."]. *)
Definition codepoint := N.
Definition str := list codepoint.

Definition py (s : string) : str := map N_of_ascii (list_ascii_of_string s).

(** The UTF-8 encoding of a text: the form in which a key that comes from
    a text is recorded in a [KeyError]. *)
Definition utf8_char (c : codepoint) : list N :=
  if c <? 128 then [c]
  else if c <? 2048 then [192 + c / 64; 128 + c mod 64]
  else if c <? 65536
  then [224 + c / 4096; 128 + (c / 64) mod 64; 128 + c mod 64]
  else [240 + (c / 262144) mod 8; 128 + (c / 4096) mod 64;
        128 + (c / 64) mod 64; 128 + c mod 64].

Definition utf8 (s : str) : string :=
  string_of_list_ascii (map ascii_of_N (flat_map utf8_char s)).

Module Text.

(** [str.isspace] on one code point, the table behind the argument-less
    [str.strip()]: U+0009..000D, U+001C..0020, U+0085, U+00A0, U+1680,
    U+2000..200A, U+2028, U+2029, U+202F, U+205F and U+3000. *)
Definition isspace (c : codepoint) : bool :=
  ((9 <=? c) && (c <=? 13)) || ((28 <=? c) && (c <=? 32))
  || (c =? 133) || (c =? 160) || (c =? 5760)
  || ((8192 <=? c) && (c <=? 8202))
  || (c =? 8232) || (c =? 8233) || (c =? 8239) || (c =? 8287)
  || (c =? 12288).

(** Membership of a code point in the argument of [str.strip(chars)]:
    the argument is a set of characters, not a prefix or suffix. *)
Definition in_chars (chars : str) (c : codepoint) : bool :=
  existsb (N.eqb c) chars.

Fixpoint lstrip_with (p : codepoint -> bool) (s : str) : str :=
  match s with
  | [] => []
  | c :: s' => if p c then lstrip_with p s' else s
  end.

Definition rstrip_with (p : codepoint -> bool) (s : str) : str :=
  rev (lstrip_with p (rev s)).

Definition strip_with (p : codepoint -> bool) (s : str) : str :=
  rstrip_with p (lstrip_with p s).

(** [s.strip()] *)
Definition strip (s : str) : str := strip_with isspace s.

(** [s.strip(chars)] *)
Definition strip_chars (chars : str) (s : str) : str :=
  strip_with (in_chars chars) s.

Fixpoint starts_with (pre s : str) : bool :=
  match pre, s with
  | [], _ => true
  | _ :: _, [] => false
  | p :: pre', c :: s' => (p =? c) && starts_with pre' s'
  end.

(** The scan of [str.replace] for a non-empty [old]: left to right,
    occurrences taken greedily and never overlapping.  [skip] counts the
    characters of the occurrence just matched that are still to be
    passed over. *)
Fixpoint replace_scan (old new : str) (skip : nat) (s : str) : str :=
  match s with
  | [] => []
  | c :: s' =>
      match skip with
      | S k => replace_scan old new k s'
      | O =>
          if starts_with old s
          then new ++ replace_scan old new (Nat.pred (length old)) s'
          else c :: replace_scan old new 0 s'
      end
  end.

(** [s.replace(old, new)]; an empty [old] matches before every character
    and at the end. *)
Definition replace (old new s : str) : str :=
  match old with
  | [] => new ++ flat_map (fun c => c :: new) s
  | _ :: _ => replace_scan old new 0 s
  end.

(** [old in s] *)
Fixpoint contains (old s : str) : bool :=
  starts_with old s
  || match s with
     | [] => false
     | _ :: s' => contains old s'
     end.

(** No character to strip at the left end, at the right end. *)
Definition clean_left (p : codepoint -> bool) (s : str) : Prop :=
  match s with
  | [] => True
  | c :: _ => p c = false
  end.

Definition clean_right (p : codepoint -> bool) (s : str) : Prop :=
  clean_left p (rev s).

(** An occurrence of [old] in [s]. *)
Definition occurs (old s : str) : Prop := exists a b, s = a ++ old ++ b.

End Text.

(* ===================================================================== *)
(** * CodeSanitizer: [clean_python_code] *)
(* ===================================================================== *)

Definition backticks : str := py "```".
Definition python_word : str := py "python".

(** [raw_code.strip().strip("```").replace("python", "").strip()] *)
Definition clean_python_code (raw_code : str) : str :=
  Text.strip
    (Text.replace python_word []
       (Text.strip_chars backticks (Text.strip raw_code))).

(* ===================================================================== *)
(** * Exceptions and results *)
(* ===================================================================== *)

(** [KeyError key] is a lookup that found no [key]: [df[col]],
    [exec_locals["fig"]], a template variable that was not supplied.
    [LibraryError cls] stands for any other exception, of class [cls],
    raised inside pandas, requests, the template library, the
    language-model client, Streamlit or the executed program. *)
Inductive exn :=
| KeyError (key : string)
| LibraryError (cls : string).

Inductive result (A : Type) :=
| Ok (a : A)
| Raise (e : exn).
Arguments Ok {A} a.
Arguments Raise {A} e.

#[global] Instance result_ret : MRet result := @Ok.
#[global] Instance result_bind : MBind result :=
  fun A B f m => match m with Ok a => f a | Raise e => Raise e end.

(** What a library routine left abstract may do: return, or raise an
    exception of its own. *)
Inductive outcome (A : Type) :=
| Returns (a : A)
| Throws (cls : string).
Arguments Returns {A} a.
Arguments Throws {A} cls.

Definition of_outcome {A} (o : outcome A) : result A :=
  match o with
  | Returns a => Ok a
  | Throws cls => Raise (LibraryError cls)
  end.

(* ===================================================================== *)
(** * Values: binary64 floats, JSON, columns *)
(* ===================================================================== *)

Module Float64.
Local Open Scope Z_scope.

(** IEEE 754 binary64, as specified by [SpecFloat]. *)
Definition t := spec_float.
Definition prec : Z := 53.
Definition emax : Z := 1024.

Definition nan : t := S754_nan.
Definition inf (negative : bool) : t := S754_infinity negative.

(** Conversion of an integer, rounding to nearest even. *)
Definition of_int (z : Z) : t := binary_normalize prec emax z 0 false.

Definition div (x y : t) : t := SFdiv prec emax x y.

Definition is_nan (x : t) : bool :=
  match x with S754_nan => true | _ => false end.

Definition is_zero (x : t) : bool :=
  match x with S754_zero _ => true | _ => false end.

(** The sign bit; NaN carries none. *)
Definition signbit (x : t) : bool :=
  match x with
  | S754_zero s | S754_infinity s | S754_finite s _ _ => s
  | S754_nan => false
  end.

(** The integer a float is equal to, when it is equal to one. *)
Definition to_Z (x : t) : option Z :=
  match x with
  | S754_zero _ => Some 0
  | S754_finite s m e =>
      let sign := if s then -1 else 1 in
      if 0 <=? e then Some (sign * Z.pos m * 2 ^ e)
      else if Z.pos m mod 2 ^ (- e) =? 0
      then Some (sign * (Z.pos m / 2 ^ (- e)))
      else None
  | S754_infinity _ | S754_nan => None
  end.
End Float64.

(** A JSON value of a quarterly record as [resp.json()] returns it: the
    fields of the financial endpoint are numbers, strings or null. *)
Inductive json :=
| JNull
| JInt (z : Z)
| JFloat (x : Float64.t)
| JStr (s : str).

(** One quarterly record: a [dict], keys in insertion order. *)
Definition record := list (string * json).

Definition record_get (key : string) (r : record) : option json :=
  snd <$> find (fun kv => bool_decide (kv.1 = key)) r.

(** The Python objects an object-dtype column holds. *)
Inductive pyobj :=
| PyNone
| PyInt (z : Z)
| PyFloat (x : Float64.t)
| PyStr (s : str).

(** A calendar date-time; [strftime('%m-%Y')] reads [month] and [year]. *)
Record Timestamp := { year : Z; month : Z; day : Z }.

(** A column with its dtype.  In [Datetime64], [None] is [NaT]. *)
Inductive Series :=
| Int64 (xs : list Z)
| UInt64 (xs : list Z)
| Float64 (xs : list Float64.t)
| Datetime64 (xs : list (option Timestamp))
| Object (xs : list pyobj).

(** A frame: labelled columns, in column order. *)
Definition DataFrame := list (string * Series).

Definition column (df : DataFrame) (label : string) : option Series :=
  snd <$> find (fun kv => bool_decide (kv.1 = label)) df.

Definition labels (df : DataFrame) : list string := map fst df.

(** [df[label]] *)
Definition getitem (df : DataFrame) (label : string) : result Series :=
  match column df label with
  | Some s => Ok s
  | None => Raise (KeyError label)
  end.

(** [df[label] = s]: an existing column is replaced in place, a new one is
    appended. *)
Fixpoint setitem (df : DataFrame) (label : string) (s : Series) : DataFrame :=
  match df with
  | [] => [(label, s)]
  | (l, c) :: df' =>
      if bool_decide (l = label) then (l, s) :: df'
      else (l, c) :: setitem df' label s
  end.

(** [df[[l1; ...; ln]]]: the listed columns, in the listed order. *)
Fixpoint getitems (df : DataFrame) (ls : list string) : result DataFrame :=
  match ls with
  | [] => Ok []
  | l :: ls' =>
      s ← getitem df l;
      rest ← getitems df ls';
      Ok ((l, s) :: rest)
  end.

(* ===================================================================== *)
(** * [pd.DataFrame(records)] *)
(* ===================================================================== *)

Module Infer.
Local Open Scope Z_scope.

Definition INT64_MIN : Z := - 2 ^ 63.
Definition INT64_MAX : Z := 2 ^ 63 - 1.
Definition UINT64_MAX : Z := 2 ^ 64 - 1.

(** What the dtype inference of pandas ([lib.maybe_convert_objects]) has
    seen while scanning a column of objects. *)
Record Seen := {
  null_ : bool;  (* None *)
  nan_ : bool;   (* a float NaN *)
  float_ : bool; (* a float that is not NaN *)
  int_ : bool;
  uint_ : bool;  (* an integer above INT64_MAX *)
  sint_ : bool   (* a negative integer *)
}.

Definition nothing : Seen :=
  {| null_ := false; nan_ := false; float_ := false;
     int_ := false; uint_ := false; sint_ := false |}.

Definition saw_int (s : Seen) (z : Z) : Seen :=
  {| null_ := null_ s; nan_ := nan_ s; float_ := float_ s; int_ := true;
     uint_ := uint_ s || ((INT64_MAX <? z) && (z <=? UINT64_MAX));
     sint_ := sint_ s || ((INT64_MIN <=? z) && (z <? 0)) |}.

(** The scan stops with [None] as soon as the column has to stay a column
    of objects: at a string, at an integer outside 64 bits, or when
    negative integers meet integers above INT64_MAX.  Once a null has
    been seen, integers are no longer range-checked. *)
Fixpoint scan (s : Seen) (l : list pyobj) : option Seen :=
  match l with
  | [] => Some s
  | PyNone :: l' =>
      scan {| null_ := true; nan_ := nan_ s; float_ := float_ s;
              int_ := int_ s; uint_ := uint_ s; sint_ := sint_ s |} l'
  | PyFloat x :: l' =>
      if Float64.is_nan x
      then scan {| null_ := null_ s; nan_ := true; float_ := float_ s;
                   int_ := int_ s; uint_ := uint_ s; sint_ := sint_ s |} l'
      else scan {| null_ := null_ s; nan_ := nan_ s; float_ := true;
                   int_ := int_ s; uint_ := uint_ s; sint_ := sint_ s |} l'
  | PyInt z :: l' =>
      if null_ s
      then scan {| null_ := true; nan_ := nan_ s; float_ := float_ s;
                   int_ := true; uint_ := uint_ s; sint_ := sint_ s |} l'
      else
        let s' := saw_int s z in
        if (uint_ s' && sint_ s') || (UINT64_MAX <? z) || (z <? INT64_MIN)
        then None
        else scan s' l'
  | PyStr _ :: _ => None
  end.

Definition as_float (o : pyobj) : Float64.t :=
  match o with
  | PyInt z => Float64.of_int z
  | PyFloat x => x
  | PyNone | PyStr _ => Float64.nan
  end.

Definition as_int (o : pyobj) : Z :=
  match o with
  | PyInt z => z
  | _ => 0
  end.

(** The column pandas builds from a list of objects: integers alone give
    an integer column, numbers mixed with floats, NaN or None give
    float64 (None becoming NaN), anything else stays a column of
    objects; so does a column of None only. *)
Definition maybe_convert_objects (l : list pyobj) : Series :=
  match scan nothing l with
  | None => Object l
  | Some s =>
      if null_ s || nan_ s then
        if float_ s || int_ s || nan_ s
        then Float64 (map as_float l)
        else Object l
      else if float_ s then Float64 (map as_float l)
      else if int_ s then
        if uint_ s then UInt64 (map as_int l) else Int64 (map as_int l)
      else Object l
  end.

Definition is_int (o : pyobj) : Prop := exists z, o = PyInt z.

(** Nothing but integers was seen. *)
Definition only_ints (s : Seen) : Prop :=
  null_ s = false /\ nan_ s = false /\ float_ s = false.
End Infer.

Definition pyobj_of_json (j : json) : pyobj :=
  match j with
  | JNull => PyNone
  | JInt z => PyInt z
  | JFloat x => PyFloat x
  | JStr s => PyStr s
  end.

(** The cell of a record under a column label: a record without the key
    gets NaN. *)
Definition cell (label : string) (r : record) : pyobj :=
  match record_get label r with
  | Some j => pyobj_of_json j
  | None => PyFloat Float64.nan
  end.

Definition add_label (acc : list string) (kv : string * json) : list string :=
  if bool_decide (kv.1 ∈ acc) then acc else acc ++ [kv.1].

(** The column labels of [pd.DataFrame(records)]: the keys of all records,
    each at its first appearance. *)
Definition column_labels (recs : list record) : list string :=
  fold_left (fun acc r => fold_left add_label r acc) recs [].

(** [pd.DataFrame(records)] for a list of dicts: one row per record, in the
    order of the list. *)
Definition DataFrame_of_records (recs : list record) : DataFrame :=
  map (fun l => (l, Infer.maybe_convert_objects (map (cell l) recs)))
      (column_labels recs).

(** How a row of a column holds the field of its record: as it is, or,
    in a column that became a float column, as a float: an integer
    converted with rounding, null and a missing field as NaN. *)
Definition held_as (label : string) (r : record) (o : pyobj) : Prop :=
  match record_get label r with
  | Some (JInt z) => o = PyInt z \/ o = PyFloat (Float64.of_int z)
  | Some (JFloat x) => o = PyFloat x
  | Some (JStr s) => o = PyStr s
  | Some JNull => o = PyNone \/ o = PyFloat Float64.nan
  | None => o = PyFloat Float64.nan
  end.

(* ===================================================================== *)
(** * The world, and the library behaviour left abstract *)
(* ===================================================================== *)

(** What a name of an executed program may be bound to.  [Figure] stands
    for whatever [st.plotly_chart] accepts as a figure. *)
Inductive pyvalue :=
| Figure (description : str)
| Builtin (name : string)
| BuiltinsModule
| Opaque (repr : str).

Abbreviation namespace := (gmap string pyvalue).

(** The elements Streamlit is asked to draw.  Layout contexts
    ([st.container], [st.columns], [st.spinner]) draw nothing of their
    own. *)
Inductive element :=
| Subheader (title : str)
| Markdown (body : str)
| PlotlyChart (fig : pyvalue)
| Success (body : str).

(** The two external services answer as they please: the data source per
    request, the language model per invocation (it samples at temperature
    0.7, so the n-th answer to a prompt is not a function of the prompt). *)
Record World := {
  http_get : str -> list (string * str) -> outcome (list record);
  llm_answer : nat -> str -> outcome str;
  llm_prompts : list str;  (* the prompts sent so far, oldest first *)
  page : list element      (* the elements drawn so far, oldest first *)
}.

(** The routines of pandas, of the template library and of the Python
    interpreter that the properties below do not depend on are parameters
    of the development: every theorem holds whatever they compute. *)
Class Runtime := {
  (** [pd.to_datetime] on one element of a column (the column is given
      too: pandas infers the format from it); [None] is [NaT]. *)
  to_datetime_element : Series -> pyobj -> outcome (option Timestamp);
  (** [a / b] when a column is not numeric: pandas hands the operation to
      the objects themselves. *)
  object_truediv : Series -> Series -> outcome Series;
  (** [df.to_string(index=False)] *)
  to_string : DataFrame -> str;
  (** [str(df)], the text an f-string inserts for a frame. *)
  frame_repr : DataFrame -> str;
  (** [exec(code, globals, locals)] started in a world: the locals the
      program leaves when it runs to its end, or the exception it raises,
      and in both cases the world it leaves.  The program runs inside the
      Streamlit script and can import what it likes, so it may draw on the
      page and send prompts of its own. *)
  python_exec :
    str -> namespace -> namespace -> World -> outcome namespace * World;
  (** [PromptTemplate.from_template] on a variable name that is an
      attribute access, an index or a number: releases of the template
      library differ on whether they accept it. *)
  template_variable : str -> outcome unit;
  (** The formatter on a replacement field that is more than a supplied
      name (an attribute or an index of the value, a conversion other than
      [!s], a format specification), given the keyword arguments, the
      field name, the conversion and the specification. *)
  template_field :
    list (str * str) -> str -> option codepoint -> str -> outcome str
}.

(* ===================================================================== *)
(** * Column operations used by metric derivation *)
(* ===================================================================== *)

Module Strftime.
Fixpoint uint_digits (u : Decimal.uint) : str :=
  match u with
  | Decimal.Nil => []
  | Decimal.D0 u' => 48 :: uint_digits u'
  | Decimal.D1 u' => 49 :: uint_digits u'
  | Decimal.D2 u' => 50 :: uint_digits u'
  | Decimal.D3 u' => 51 :: uint_digits u'
  | Decimal.D4 u' => 52 :: uint_digits u'
  | Decimal.D5 u' => 53 :: uint_digits u'
  | Decimal.D6 u' => 54 :: uint_digits u'
  | Decimal.D7 u' => 55 :: uint_digits u'
  | Decimal.D8 u' => 56 :: uint_digits u'
  | Decimal.D9 u' => 57 :: uint_digits u'
  end.

Definition decimal (n : N) : str := uint_digits (N.to_uint n).

Definition zero_pad (width : nat) (s : str) : str :=
  repeat 48 (width - length s)%nat ++ s.

(** One conversion: [%Y] the year, [%m] and [%d] month and day on two
    digits, [%%] a percent sign; any other character is kept with its
    percent sign. *)
Definition directive (d : codepoint) (t : Timestamp) : str :=
  if d =? 89 then decimal (Z.to_N (year t))
  else if d =? 109 then zero_pad 2 (decimal (Z.to_N (month t)))
  else if d =? 100 then zero_pad 2 (decimal (Z.to_N (day t)))
  else if d =? 37 then [37]
  else [37; d].

Fixpoint strftime (fmt : str) (t : Timestamp) : str :=
  match fmt with
  | [] => []
  | c :: fmt' =>
      if c =? 37 then
        match fmt' with
        | [] => [c]
        | d :: fmt'' => directive d t ++ strftime fmt'' t
        end
      else c :: strftime fmt' t
  end.
End Strftime.

(** The elements of a column as objects. *)
Definition boxed (s : Series) : list pyobj :=
  match s with
  | Int64 xs | UInt64 xs => map PyInt xs
  | Float64 xs => map PyFloat xs
  | Object xs => xs
  | Datetime64 _ => []
  end.

(** The values of a numeric column as floats, as [/] converts them. *)
Definition float_values (s : Series) : option (list Float64.t) :=
  match s with
  | Int64 xs | UInt64 xs => Some (map Float64.of_int xs)
  | Float64 xs => Some xs
  | Datetime64 _ | Object _ => None
  end.

(** The fields metric derivation reads from the records. *)
Definition required_fields : list string :=
  ["date"; "total_liabilities"; "total_equity"; "revenue"; "total_assets"]%string.

(** One formatted cell of [.dt.strftime]: [NaT] gives NaN. *)
Definition strftime_cell (fmt : str) (o : option Timestamp) : pyobj :=
  match o with
  | Some t => PyStr (Strftime.strftime fmt t)
  | None => PyFloat Float64.nan
  end.

Section ColumnOperations.
Context `{Runtime}.

(** [pd.to_datetime(s)]: element by element, the first failure raising. *)
Definition to_datetime (s : Series) : result Series :=
  match s with
  | Datetime64 _ => Ok s
  | _ =>
      ts ← mapM (fun o => of_outcome (to_datetime_element s o)) (boxed s);
      Ok (Datetime64 ts)
  end.

(** [s.dt.strftime(fmt)] *)
Definition dt_strftime (s : Series) (fmt : str) : result Series :=
  match s with
  | Datetime64 ts => Ok (Object (map (strftime_cell fmt) ts))
  | _ => Raise (LibraryError "AttributeError")
  end.

(** [a / b] on two columns of one frame: numeric columns are divided as
    binary64 floats, element by element, and a zero divisor raises
    nothing. *)
Definition truediv (a b : Series) : result Series :=
  match float_values a, float_values b with
  | Some xs, Some ys => Ok (Float64 (zip_with Float64.div xs ys))
  | _, _ => of_outcome (object_truediv a b)
  end.

(* =================================================================== *)
(** * MetricsDeriver: lines 62 to 68 of [financial_summary] *)
(* =================================================================== *)

(** Lines 65 and 66: [date] parsed, then rewritten as month-year text. *)
Definition normalize_dates (financials : DataFrame) : result DataFrame :=
  date ← getitem financials "date";
  parsed ← to_datetime date;
  let financials := setitem financials "date" parsed in
  date ← getitem financials "date";
  formatted ← dt_strftime date (py "%m-%Y");
  Ok (setitem financials "date" formatted).

(** Lines 67 and 68: the two ratios. *)
Definition add_ratios (financials : DataFrame) : result DataFrame :=
  total_liabilities ← getitem financials "total_liabilities";
  total_equity ← getitem financials "total_equity";
  der ← truediv total_liabilities total_equity;
  let financials := setitem financials "DER" der in
  revenue ← getitem financials "revenue";
  total_assets ← getitem financials "total_assets";
  asset_turnover ← truediv revenue total_assets;
  Ok (setitem financials "asset_turnover" asset_turnover).

(** The frame [financial_summary] hands to the panels: built from the
    fetched records (line 62), dates normalized, ratios added. *)
Definition derive_metrics (recs : list record) : result DataFrame :=
  dated ← normalize_dates (DataFrame_of_records recs);
  add_ratios dated.

End ColumnOperations.

(* ===================================================================== *)
(** * PromptComposer: [PromptTemplate.from_template(t).format(data=...)] *)
(* ===================================================================== *)

Module PromptTemplate.

Definition lookup_kwarg (kwargs : list (str * str)) (name : str) : option str :=
  snd <$> find (fun kv => bool_decide (kv.1 = name)) kwargs.

(** A parsed template: literal text and replacement fields
    [{name!conversion:spec}]. *)
Inductive piece :=
| Literal (text : str)
| Field (name : str) (conversion : option codepoint) (spec : str).

(** Where the parser of [string.Formatter] is in a template: in literal
    text; in a field name ([bracket] after a [[] until the next []]); just
    after [!]; after the conversion character; in a format specification,
    [depth] counting the braces still open. *)
Inductive position :=
| InText (text : str)
| InName (name : str) (bracket : bool)
| InConversion (name : str)
| AfterConversion (name : str) (conversion : codepoint)
| InSpec (name : str) (conversion : option codepoint) (spec : str)
    (depth : nat).

(** [Formatter().parse(template)], read to its end.  [{{] and [}}] are
    literal braces; a brace alone, a [{] in a field name, an unclosed field
    and anything but [:] or [}] after a conversion are a [ValueError]. *)
Fixpoint parse_scan (p : position) (t : str) : result (list piece) :=
  match t with
  | [] =>
      match p with
      | InText text => Ok [Literal text]
      | _ => Raise (LibraryError "ValueError")
      end
  | c :: t' =>
      match p with
      | InText text =>
          if c =? 123 then
            match t' with
            | [] => Raise (LibraryError "ValueError")
            | c2 :: t'' =>
                if c2 =? 123 then parse_scan (InText (text ++ [123])) t''
                else
                  rest ← parse_scan (InName [] false) t';
                  Ok (Literal text :: rest)
            end
          else if c =? 125 then
            match t' with
            | [] => Raise (LibraryError "ValueError")
            | c2 :: t'' =>
                if c2 =? 125 then parse_scan (InText (text ++ [125])) t''
                else Raise (LibraryError "ValueError")
            end
          else parse_scan (InText (text ++ [c])) t'
      | InName name true =>
          parse_scan (InName (name ++ [c]) (negb (c =? 93))) t'
      | InName name false =>
          if c =? 123 then Raise (LibraryError "ValueError")
          else if c =? 91 then parse_scan (InName (name ++ [c]) true) t'
          else if c =? 125 then
            rest ← parse_scan (InText []) t';
            Ok (Field name None [] :: rest)
          else if c =? 58 then parse_scan (InSpec name None [] 1) t'
          else if c =? 33 then parse_scan (InConversion name) t'
          else parse_scan (InName (name ++ [c]) false) t'
      | InConversion name => parse_scan (AfterConversion name c) t'
      | AfterConversion name conversion =>
          if c =? 125 then
            rest ← parse_scan (InText []) t';
            Ok (Field name (Some conversion) [] :: rest)
          else if c =? 58
          then parse_scan (InSpec name (Some conversion) [] 1) t'
          else Raise (LibraryError "ValueError")
      | InSpec name conversion spec depth =>
          if c =? 123
          then parse_scan (InSpec name conversion (spec ++ [c]) (S depth)) t'
          else if c =? 125 then
            match depth with
            | 1%nat | O =>
                rest ← parse_scan (InText []) t';
                Ok (Field name conversion spec :: rest)
            | S depth' =>
                parse_scan (InSpec name conversion (spec ++ [c]) depth') t'
            end
          else parse_scan (InSpec name conversion (spec ++ [c]) depth) t'
      end
  end.

Definition parse (template : str) : result (list piece) :=
  parse_scan (InText []) template.

(** The variables of a template: the names of its fields. *)
Definition variables (pieces : list piece) : list str :=
  flat_map (fun p => match p with
                     | Field name _ _ => [name]
                     | Literal _ => []
                     end) pieces.

(** An ASCII character other than a digit: it makes the name it occurs in
    a keyword, not a position. *)
Definition ascii_nondigit (c : codepoint) : bool :=
  (c <? 128) && negb ((48 <=? c) && (c <=? 57)).

(** The part of a field name before the first [.] or [[]: the argument the
    field refers to. *)
Fixpoint first_part (name : str) : str :=
  match name with
  | [] => []
  | c :: name' =>
      if (c =? 46) || (c =? 91) then [] else c :: first_part name'
  end.

(** A variable name that every release of the template library takes as
    a keyword: no attribute access or index, and not a number. *)
Definition plain_variable (name : str) : bool :=
  negb (existsb (Text.in_chars (py ".[]")) name)
  && existsb ascii_nondigit name.

(** Text without a brace: the formatter copies it. *)
Definition brace_free (s : str) : bool :=
  forallb (fun c => negb ((c =? 123) || (c =? 125))) s.

(** The text before the first opening brace of a template, and the text
    after a field [{data}] that starts there. *)
Definition before_field (t : str) : str :=
  take (length t - length (Text.lstrip_with (fun c => negb (c =? 123)) t)) t.

Definition after_field (t : str) : str :=
  drop (length (before_field t) + 6) t.

Definition single_data_field (t : str) : bool :=
  bool_decide (t = before_field t ++ py "{data}" ++ after_field t)
  && brace_free (before_field t) && brace_free (after_field t).

Section Formatter.
Context `{Runtime}.

(** The check of one variable name: an empty name and a plain one pass
    in every release. *)
Definition check_variable (name : str) : result unit :=
  if bool_decide (name = []) || plain_variable name then Ok tt
  else of_outcome (template_variable name).

(** [PromptTemplate.from_template(template)]: the whole template is
    parsed for its variables before anything is formatted, so a malformed
    template is a [ValueError] wherever the fault is; the prompt class
    then refuses a variable named [stop] (its validator
    [validate_variable_names] raises, which pydantic reports as a
    [ValidationError]). *)
Definition from_template (template : str) : result (list piece) :=
  pieces ← parse template;
  _ ← mapM check_variable (variables pieces);
  if bool_decide (py "stop" ∈ variables pieces)
  then Raise (LibraryError "ValidationError")
  else Ok pieces.

(** The text of one replacement field.  There are keyword arguments only,
    all of them texts: an empty name is positional and finds nothing; a
    name that is a keyword is looked up, and the value found is the text of
    the field when nothing more is asked of it ([!s] and an empty
    specification leave a text as it is). *)
Definition render_field (kwargs : list (str * str)) (name : str)
    (conversion : option codepoint) (spec : str) : result str :=
  if bool_decide (name = []) then Raise (LibraryError "IndexError")
  else if existsb ascii_nondigit (first_part name) then
    match lookup_kwarg kwargs (first_part name) with
    | None => Raise (KeyError (utf8 (first_part name)))
    | Some v =>
        if bool_decide (first_part name = name)
           && match conversion with
              | None => true
              | Some c => c =? 115
              end
           && bool_decide (spec = [])
        then Ok v
        else of_outcome (template_field kwargs name conversion spec)
    end
  else of_outcome (template_field kwargs name conversion spec).

(** [.format] with keyword arguments on the parsed template: the pieces
    from left to right, the first field that fails raising. *)
Fixpoint format (pieces : list piece) (kwargs : list (str * str))
    : result str :=
  match pieces with
  | [] => Ok []
  | Literal text :: pieces' =>
      rest ← format pieces' kwargs;
      Ok (text ++ rest)
  | Field name conversion spec :: pieces' =>
      v ← render_field kwargs name conversion spec;
      rest ← format pieces' kwargs;
      Ok (v ++ rest)
  end.

End Formatter.

End PromptTemplate.

(* ===================================================================== *)
(** * Computations on the world *)
(* ===================================================================== *)

(** Computations that read and change the world and may raise. *)
Record M (A : Type) := Action { run : World -> result A * World }.
Arguments Action {A} run.
Arguments run {A} m w.

#[global] Instance M_ret : MRet M := fun A a => Action (fun w => (Ok a, w)).
#[global] Instance M_bind : MBind M := fun A B f m =>
  Action (fun w =>
    match run m w with
    | (Ok a, w') => run (f a) w'
    | (Raise e, w') => (Raise e, w')
    end).

Definition lift {A} (r : result A) : M A := Action (fun w => (r, w)).

Definition BASE_URL : str := py "https://api.sectors.app/v1".

(** [fetch_data(endpoint, params)]: the request, [raise_for_status], the
    decoded body. *)
Definition fetch_data (endpoint : str) (params : list (string * str))
    : M (list record) :=
  Action (fun w =>
    (of_outcome (http_get w (BASE_URL ++ py "/" ++ endpoint) params), w)).

(** The world after one more prompt was sent, and after one more element
    was drawn. *)
Definition with_prompt (w : World) (prompt : str) : World :=
  {| http_get := http_get w; llm_answer := llm_answer w;
     llm_prompts := llm_prompts w ++ [prompt]; page := page w |}.

Definition with_element (w : World) (e : element) : World :=
  {| http_get := http_get w; llm_answer := llm_answer w;
     llm_prompts := llm_prompts w; page := page w ++ [e] |}.

(** [llm.invoke(prompt).content] *)
Definition llm_invoke (prompt : str) : M str :=
  Action (fun w =>
    (of_outcome (llm_answer w (length (llm_prompts w)) prompt),
     with_prompt w prompt)).

(** A Streamlit call that draws one element. *)
Definition draw (e : element) : M unit :=
  Action (fun w => (Ok tt, with_element w e)).

(** [st.plotly_chart(fig, use_container_width=True)]: what is no figure
    is refused by plotly. *)
Definition st_plotly_chart (fig : pyvalue) : M unit :=
  match fig with
  | Figure _ => draw (PlotlyChart fig)
  | _ => lift (Raise (LibraryError "PlotlyError"))
  end.

(* ===================================================================== *)
(** * SandboxExecutor: the namespaces of [exec(code, {}, exec_locals)] *)
(* ===================================================================== *)

Module Exec.

(** The names of the [builtins] module of CPython 3.11: functions and
    constants, then exception classes. *)
Definition builtin_objects : list string :=
  [
   "Ellipsis"; "False"; "None"; "NotImplemented"; "True";
   "__build_class__"; "__debug__"; "__doc__"; "__import__";
   "__loader__"; "__name__"; "__package__"; "__spec__"; "abs"; "aiter";
   "all"; "anext"; "any"; "ascii"; "bin"; "bool"; "breakpoint";
   "bytearray"; "bytes"; "callable"; "chr"; "classmethod"; "compile";
   "complex"; "copyright"; "credits"; "delattr"; "dict"; "dir";
   "divmod"; "enumerate"; "eval"; "exec"; "exit"; "filter"; "float";
   "format"; "frozenset"; "getattr"; "globals"; "hasattr"; "hash";
   "help"; "hex"; "id"; "input"; "int"; "isinstance"; "issubclass";
   "iter"; "len"; "license"; "list"; "locals"; "map"; "max";
   "memoryview"; "min"; "next"; "object"; "oct"; "open"; "ord"; "pow";
   "print"; "property"; "quit"; "range"; "repr"; "reversed"; "round";
   "set"; "setattr"; "slice"; "sorted"; "staticmethod"; "str"; "sum";
   "super"; "tuple"; "type"; "vars"; "zip"
  ]%string.

Definition builtin_exceptions : list string :=
  [
   "ArithmeticError"; "AssertionError"; "AttributeError";
   "BaseException"; "BaseExceptionGroup"; "BlockingIOError";
   "BrokenPipeError"; "BufferError"; "BytesWarning";
   "ChildProcessError"; "ConnectionAbortedError"; "ConnectionError";
   "ConnectionRefusedError"; "ConnectionResetError";
   "DeprecationWarning"; "EOFError"; "EncodingWarning";
   "EnvironmentError"; "Exception"; "ExceptionGroup";
   "FileExistsError"; "FileNotFoundError"; "FloatingPointError";
   "FutureWarning"; "GeneratorExit"; "IOError"; "ImportError";
   "ImportWarning"; "IndentationError"; "IndexError";
   "InterruptedError"; "IsADirectoryError"; "KeyError";
   "KeyboardInterrupt"; "LookupError"; "MemoryError";
   "ModuleNotFoundError"; "NameError"; "NotADirectoryError";
   "NotImplementedError"; "OSError"; "OverflowError";
   "PendingDeprecationWarning"; "PermissionError";
   "ProcessLookupError"; "RecursionError"; "ReferenceError";
   "ResourceWarning"; "RuntimeError"; "RuntimeWarning";
   "StopAsyncIteration"; "StopIteration"; "SyntaxError";
   "SyntaxWarning"; "SystemError"; "SystemExit"; "TabError";
   "TimeoutError"; "TypeError"; "UnboundLocalError";
   "UnicodeDecodeError"; "UnicodeEncodeError"; "UnicodeError";
   "UnicodeTranslateError"; "UnicodeWarning"; "UserWarning";
   "ValueError"; "Warning"; "ZeroDivisionError"
  ]%string.

Definition builtin_names : list string :=
  builtin_objects ++ builtin_exceptions.

Definition builtins : namespace :=
  list_to_map (map (fun n => (n, Builtin n)) builtin_names).

(** The globals a program runs with: [exec] binds [__builtins__] to the
    builtins module in a globals dict that has no such key. *)
Definition exec_globals (globals : namespace) : namespace :=
  match globals !! "__builtins__"%string with
  | Some _ => globals
  | None => <["__builtins__"%string := BuiltinsModule]> globals
  end.

(** The builtins a program reaches through its globals. *)
Definition reachable_builtins (globals : namespace) : namespace :=
  match exec_globals globals !! "__builtins__"%string with
  | Some BuiltinsModule => builtins
  | _ => ∅
  end.

(** What a name evaluates to at the top level of the executed program:
    the locals, then the globals, then the builtins. *)
Definition resolve (globals locals : namespace) (name : string)
    : option pyvalue :=
  match locals !! name with
  | Some v => Some v
  | None =>
      match exec_globals globals !! name with
      | Some v => Some v
      | None => reachable_builtins globals !! name
      end
  end.

(** The names the caller put into the two dicts it passes. *)
Definition injected (globals locals : namespace) (name : string) : bool :=
  bool_decide (is_Some (globals !! name))
  || bool_decide (is_Some (locals !! name)).

(** What a builtin hands to the program beyond computing on values. *)
Inductive capability :=
| FileSystem          (* [open] *)
| UnrestrictedImport  (* [__import__], which the import statement calls *)
| DynamicCode         (* [exec], [eval], [compile] *)
| Console.            (* [input], [print], [breakpoint] *)

Definition capability_of (name : string) : option capability :=
  if bool_decide (name = "open"%string) then Some FileSystem
  else if bool_decide (name = "__import__"%string) then Some UnrestrictedImport
  else if bool_decide (name ∈ ["exec"; "eval"; "compile"]%string) then Some DynamicCode
  else if bool_decide (name ∈ ["input"; "print"; "breakpoint"]%string) then Some Console
  else None.

(** The two dicts [revenue_trend] passes to [exec]: both empty. *)
Definition sandbox_globals : namespace := ∅.
Definition sandbox_locals : namespace := ∅.

End Exec.

(* ===================================================================== *)
(** * The prompt texts *)
(* ===================================================================== *)

(** The template of [financial_summary]. *)
Definition summary_prompt : str :=
  py "
    Anda berperan sebagai data analyst expert dalam bidang investasi keuangan dan memiliki keahlian dalam menganalisis laporan keuangan perusahaan publik.
    Anda juga memiliki pengalaman sebagai konsultan investasi untuk klien institusional.
    Anda memiliki kemampuan untuk menyajikan informasi keuangan yang kompleks dengan cara yang mudah dipahami oleh investor.
    Anda diminta untuk melakukan analisis mendalam terhadap laporan keuangan kuartalan perusahaan publik dan menyusun ringkasan eksekutif yang jelas dan ringkas
    berdasarkan data keuangan kuartalan berikut (dalam miliar Rupiah):

    {data}
    Buatlah summary mengenai laporan keuangan kuartalan tersebut dengan memperhatikan hal-hal berikut:
1. Soroti metrik keuangan utama
2. Buat analisa menggunakan rasio: 
DER (Debt to Equity Ratio) yaitu kolom total_liabilities dibagi dengan kolom total_equity
Asset Turnover Ratio yaitu kolom revenue dibagi dengan kolom  total_assets
Dari rasio rasio tersebut jelaskan apa maksudnya bagi perusahaan.
3. Identifikasi tren atau perubahan signifikan dibandingkan kuartal sebelumnya.
4. Jelaskan setiap indikator keuangan yang Anda soroti dan mengapa itu penting bagi investor.
5. Berikan wawasan tentang faktor-faktor yang mungkin mempengaruhi kinerja keuangan perusahaan.
6. Sajikan informasi ini dalam format yang mudah dipahami oleh investor, seperti poin-poin ringkas atau tabel.
7. Ringkasan harus ditulis dalam bahasa Indonesia.
8. Gunakan istilah yang mudah dimengerti oleh investor awam.
9. Berikan rekomendasi investasi berdasarkan analisis Anda.
10. Buat kesimpulan yang menyoroti kekuatan dan potensi risiko investasi di perusahaan ini.

    ".

(** The template of [trend_analysis]. *)
Definition trend_prompt : str :=
  py "
    Anda beerperan sebagai seorang data analyst dari mckinsey yang memiliki keahlian dalam menganalisis laporan keuangan perusahaan publik.
    Anda juga memiliki pengalaman sebagai konsultan investasi untuk klien institusional.
    Berdasarkan data kuartalan berikut:
    {data}
    Berikan insight mendalam tentang kondisi keuangan perusahaan berdasarkan visualisasi tersebut kemudian berikan rekomendasi apa yang harus diperbaiki atau harus ditingkatkan oleh perusahaan
    dan gunakan bahasa yang bisa di mengerti dan di eksekusi oleh manajemen perusahaan.
    ".

(** The template of [risk_analysis]. *)
Definition risk_prompt : str :=
  py "
    Anda adalah berperan sebagai seorang  analis risiko keuangan dan audit internal yang skeptis.
    Tugas anda andalah mencari celah potensi kerugian perusahaan atau indikator red flag yang bisa menyebabkan perusahaan mengalami penurunan / kerugian di masa mendatang.
    Periksa data keuangan berikut dengan teliti:
    {data}
    Indentifikasi 5 potensi risiko atau "
  ++ [34]
  ++ py "red flags"
  ++ [34]
  ++ py " yang perlu diwaspadai dari data tersebut. 
    Jelaskan secara detail mengapa hal tersebut menjadi risiko bagi perusahaan dan langsung kepada penjelasan poin poinnya.
    ".

(** The f-string of [revenue_trend], before and after [{data_sample}];
    the doubled braces of the source stand for single ones. *)
Definition visualization_prompt_head : str :=
  py "
Buatkan kode visualisasi plotly python untuk menampilkan insight keuangan berikut:
- Tampilkan dalam 1 kanvas (menggunakan subplot) dengan 3 bagian:
    1. Stacked bar chart proporsi total_assets, total_liabilities, total_equity per kuartal (row 1).
    2. Line chart tren DER & asset_turnover (row 2).
    3. Dual axis chart: revenue (bar, y1) & DER (line, y2) (row 3).
- Gunakan struktur subplot, parameter, dan urutan kode **persis** seperti contoh berikut:

# Pastikan kolom tanggal sudah dalam format datetime
financials['date'] = pd.to_datetime(financials['date'])

# Membuat subplot 3 baris 1 kolom, dengan yaxis kedua di subplot ke-3
fig = make_subplots(
    rows=3, cols=1,
    shared_xaxes=True,
    vertical_spacing=0.08,
    subplot_titles=[
        "
  ++ [34]
  ++ py "Proporsi Total Assets, Liabilities, dan Equity per Kuartal"
  ++ [34]
  ++ py ",
        "
  ++ [34]
  ++ py "Tren DER & Asset Turnover"
  ++ [34]
  ++ py ",
        "
  ++ [34]
  ++ py "Revenue vs DER"
  ++ [34]
  ++ py "
    ],
    specs=[[{"
  ++ [34]
  ++ py "type"
  ++ [34]
  ++ py ": "
  ++ [34]
  ++ py "bar"
  ++ [34]
  ++ py "}],
           [{"
  ++ [34]
  ++ py "type"
  ++ [34]
  ++ py ": "
  ++ [34]
  ++ py "scatter"
  ++ [34]
  ++ py "}],
           [{"
  ++ [34]
  ++ py "secondary_y"
  ++ [34]
  ++ py ": True}]]
)

# 1. Stacked Bar Chart
fig.add_trace(go.Bar(
    x=financials['date'],
    y=financials['total_liabilities'],
    name='Total Liabilities'
), row=1, col=1)
fig.add_trace(go.Bar(
    x=financials['date'],
    y=financials['total_equity'],
    name='Total Equity'
), row=1, col=1)
fig.add_trace(go.Bar(
    x=financials['date'],
    y=financials['total_assets'],
    name='Total Assets'
), row=1, col=1)

# 2. Line Chart DER & Asset Turnover
fig.add_trace(go.Scatter(
    x=financials['date'],
    y=financials['DER'],
    mode='lines+markers',
    name='DER'
), row=2, col=1)
fig.add_trace(go.Scatter(
    x=financials['date'],
    y=financials['asset_turnover'],
    mode='lines+markers',
    name='Asset Turnover'
), row=2, col=1)

# 3. Dual Axis: Revenue (bar) & DER (line)
fig.add_trace(go.Bar(
    x=financials['date'],
    y=financials['revenue'],
    name='Revenue',
    marker_color='rgba(55, 83, 109, 0.7)'
), row=3, col=1, secondary_y=False)
fig.add_trace(go.Scatter(
    x=financials['date'],
    y=financials['DER'],
    name='DER',
    mode='lines+markers',
    marker_color='crimson'
), row=3, col=1, secondary_y=True)

# Layout dan axis
fig.update_layout(
    barmode='stack',
    height=1200,
    title_text="
  ++ [34]
  ++ py "Insight Visualisasi Keuangan: Assets, Liabilities, Equity, Revenue, DER, Asset Turnover"
  ++ [34]
  ++ py ",
    legend_title='Metrik',
    template='plotly_white'
)
fig.update_xaxes(title_text="
  ++ [34]
  ++ py "Tanggal Laporan"
  ++ [34]
  ++ py ", row=3, col=1)
fig.update_yaxes(title_text="
  ++ [34]
  ++ py "Nilai (Miliar Rupiah)"
  ++ [34]
  ++ py ", row=1, col=1)
fig.update_yaxes(title_text="
  ++ [34]
  ++ py "Rasio"
  ++ [34]
  ++ py ", row=2, col=1)
fig.update_yaxes(title_text="
  ++ [34]
  ++ py "Revenue (Miliar Rupiah)"
  ++ [34]
  ++ py ", row=3, col=1, secondary_y=False)
fig.update_yaxes(title_text="
  ++ [34]
  ++ py "DER"
  ++ [34]
  ++ py ", row=3, col=1, secondary_y=True)
fig.show()

Gunakan data berikut:
".

Definition visualization_prompt_tail : str :=
  py "

Tulis HANYA kode Python yang bisa langsung dieksekusi. Jangan sertakan penjelasan apapun.
    ".

(* ===================================================================== *)
(** * The panels *)
(* ===================================================================== *)

Definition summary_title : str := [128161] ++ py " Ringkasan Keuangan".
Definition visualization_title : str := [128202] ++ py " Visualisasi Tren Keuangan".
Definition trend_title : str := [128270] ++ py " Interpretasi Tren Keuangan".
Definition risk_title : str := [9888; 65039] ++ py " Potensi Risiko Keuangan".

(** The columns [revenue_trend] shows to the model. *)
Definition data_sample_columns : list string :=
  ["date"; "revenue"; "total_liabilities"; "total_equity"; "total_assets";
   "DER"; "asset_turnover"]%string.

Section Pipeline.
Context `{Runtime}.

(** The prompt [run_llm] composes:
    [PromptTemplate.from_template(prompt_template)
       .format(data=data.to_string(index=False))]. *)
Definition compose_prompt (prompt_template : str) (data : DataFrame)
    : result str :=
  template ← PromptTemplate.from_template prompt_template;
  PromptTemplate.format template [(py "data", to_string data)].

Definition run_llm (prompt_template : str) (data : DataFrame) : M str :=
  prompt ← lift (compose_prompt prompt_template data);
  llm_invoke prompt.

Definition financial_summary (symbol : str) : M DataFrame :=
  fetched ← fetch_data (py "financials/quarterly/" ++ symbol ++ py "/")
               [("n_quarters"%string, py "4");
                ("report_date"%string, py "2025-06-30")];
  financials ← lift (derive_metrics fetched);
  summary ← run_llm summary_prompt financials;
  _ ← draw (Subheader summary_title);
  _ ← draw (Markdown summary);
  mret financials.

(** [exec(code, globals, locals)] in the world of the pipeline: what the
    program did to the world stays, also when it raises. *)
Definition exec (code : str) (globals locals : namespace) : M namespace :=
  Action (fun w =>
    let r := python_exec code (Exec.exec_globals globals) locals w in
    (of_outcome r.1, r.2)).

(** [exec(code, {}, exec_locals)] followed by [exec_locals["fig"]]. *)
Definition exec_figure (code : str) : M pyvalue :=
  exec_locals ← exec code Exec.sandbox_globals Exec.sandbox_locals;
  lift (match exec_locals !! "fig"%string with
        | Some fig => Ok fig
        | None => Raise (KeyError "fig")
        end).

Definition revenue_trend (symbol : str) (financials : DataFrame) : M unit :=
  data_sample ← lift (getitems financials data_sample_columns);
  let prompt :=
    visualization_prompt_head ++ frame_repr data_sample
      ++ visualization_prompt_tail in
  raw_code ← llm_invoke prompt;
  let code := clean_python_code raw_code in
  _ ← draw (Subheader visualization_title);
  fig ← exec_figure code;
  st_plotly_chart fig.

Definition trend_analysis (financials : DataFrame) : M unit :=
  analysis ← run_llm trend_prompt financials;
  _ ← draw (Subheader trend_title);
  draw (Markdown analysis).

Definition risk_analysis (financials : DataFrame) : M unit :=
  risks ← run_llm risk_prompt financials;
  _ ← draw (Subheader risk_title);
  draw (Markdown risks).

(** The body of [main] under the pressed button; the page header and the
    sidebar, which choose [symbol], are drawn before it. *)
Definition insight (symbol : str) : M unit :=
  financials ← financial_summary symbol;
  _ ← draw (Markdown (py "---"));
  _ ← revenue_trend symbol financials;
  _ ← draw (Markdown (py "---"));
  _ ← trend_analysis financials;
  _ ← risk_analysis financials;
  draw (Success (py "Analisis selesai!")).

Definition main (symbol : str) (button : bool) : M unit :=
  if button then insight symbol else mret tt.

End Pipeline.

(* ===================================================================== *)
(** * A runtime for examples *)
(* ===================================================================== *)

(** A stand-in for the abstract routines, used where a property is
    evaluated on concrete records.  It reads ISO calendar dates
    ([YYYY-MM-DD]), refuses arithmetic on object columns, prints a frame by
    its column labels, and runs programs by their text: one that contains
    [raise] raises, one that assigns [fig] leaves [fig] bound to a figure,
    one that assigns [chart] leaves [chart] bound, any other binds
    nothing; one that calls [st.markdown('---')] draws a rule.  It accepts
    every variable name and formats plain fields only. *)
Module Example.

Definition digit (c : codepoint) : option Z :=
  if (48 <=? c) && (c <=? 57) then Some (Z.of_N (c - 48)) else None.

Definition number (s : str) : option Z :=
  foldl (fun acc c => a ← acc; d ← digit c; Some (10 * a + d)%Z) (Some 0%Z) s.

Definition iso_date (s : str) : option Timestamp :=
  match s with
  | [y1; y2; y3; y4; 45; m1; m2; 45; d1; d2] =>
      y ← number [y1; y2; y3; y4];
      m ← number [m1; m2];
      d ← number [d1; d2];
      if ((1 <=? m) && (m <=? 12) && (1 <=? d) && (d <=? 31))%Z
      then Some {| year := y; month := m; day := d |}
      else None
  | _ => None
  end.

Definition read_date (o : pyobj) : outcome (option Timestamp) :=
  match o with
  | PyStr s =>
      match iso_date s with
      | Some t => Returns (Some t)
      | None => Throws "ValueError"
      end
  | PyNone => Returns None
  | PyFloat x => if Float64.is_nan x then Returns None else Throws "ValueError"
  | PyInt _ => Throws "ValueError"
  end.

Definition print_labels (df : DataFrame) : str :=
  flat_map (fun l => py l ++ [32]) (labels df).

Definition run_program (code : str) (globals locals : namespace)
    : outcome namespace :=
  if Text.contains (py "raise ") code then Throws "RuntimeError"
  else if Text.contains (py "fig = ") code
  then Returns (<["fig"%string := Figure code]> locals)
  else if Text.contains (py "chart = ") code
  then Returns (<["chart"%string := Figure code]> locals)
  else Returns locals.

Definition program_effect (code : str) (w : World) : World :=
  if Text.contains (py "st.markdown('---')") code
  then with_element w (Markdown (py "---"))
  else w.

#[export] Instance runtime : Runtime := {
  to_datetime_element := fun _ o => read_date o;
  object_truediv := fun _ _ => Throws "TypeError";
  to_string := print_labels;
  frame_repr := print_labels;
  python_exec := fun code globals locals w =>
    (run_program code globals locals, program_effect code w);
  template_variable := fun _ => Returns tt;
  template_field := fun _ _ _ _ => Throws "ValueError"
}.

(** Four quarters of one company, most recent first, as the data source
    may return them. *)
Definition quarter (date : string) (revenue liabilities equity assets : Z)
    : record :=
  [("date"%string, JStr (py date)); ("revenue"%string, JInt revenue);
   ("total_liabilities"%string, JInt liabilities);
   ("total_equity"%string, JInt equity);
   ("total_assets"%string, JInt assets)].

Definition quarters : list record :=
  [quarter "2025-06-30" 120 100 50 150;
   quarter "2025-03-31" 110 90 60 150;
   quarter "2024-12-31" 130 80 80 160;
   quarter "2024-09-30" 100 70 70 140].

Definition month_year (s : string) : pyobj := PyStr (py s).

(** Two quarters, the second without [total_assets]. *)
Definition partial_quarters : list record :=
  [quarter "2025-06-30" 120 100 50 150;
   [("date"%string, JStr (py "2025-03-31")); ("revenue"%string, JInt 110);
    ("total_liabilities"%string, JInt 90);
    ("total_equity"%string, JInt 60)]].

(** Three quarters in no date order, and the same three by date. *)
Definition shuffled_quarters : list record :=
  [quarter "2025-03-31" 110 90 60 150;
   quarter "2024-09-30" 100 70 70 140;
   quarter "2025-06-30" 120 100 50 150].

Definition quarters_by_date : list record :=
  [quarter "2024-09-30" 100 70 70 140;
   quarter "2025-03-31" 110 90 60 150;
   quarter "2025-06-30" 120 100 50 150].

Definition symbol : str := py "BBCA.JK".

(** A session in which the data source returns [quarters] and the model
    answers its invocations in turn, except invocation [fails_at], at
    which the service fails. *)
Definition model_answers : list str :=
  [py "Ringkasan: pendapatan naik.";
   py "```python
import plotly.graph_objects as go
fig = go.Figure()
```";
   py "Tren: DER menurun.";
   py "Risiko: likuiditas."].

Definition session (fails_at : nat) : World :=
  {| http_get := fun _ _ => Returns quarters;
     llm_answer := fun n _ =>
       if bool_decide (n = fails_at) then Throws "APIStatusError"
       else match model_answers !! n with
            | Some a => Returns a
            | None => Throws "APIStatusError"
            end;
     llm_prompts := [];
     page := [] |}.

(** A session in which the model writes a program that binds [chart],
    not [fig]. *)
Definition chartless_code : str :=
  py "```python
import plotly.graph_objects as go
chart = go.Figure()
```".

Definition chartless_session : World :=
  {| http_get := fun _ _ => Returns quarters;
     llm_answer := fun _ _ => Returns chartless_code;
     llm_prompts := [];
     page := [] |}.

(** The frame derived from [quarters]. *)
Definition derived_quarters : DataFrame :=
  match derive_metrics quarters with
  | Ok f => f
  | Raise _ => []
  end.

(** A session in which the program the model writes draws a rule of its
    own before it binds [fig]. *)
Definition drawing_code : str :=
  py "```python
import streamlit as st
import plotly.graph_objects as go
st.markdown('---')
fig = go.Figure()
```".

Definition drawing_answers : list str :=
  [py "Ringkasan: pendapatan naik."; drawing_code;
   py "Tren: DER menurun."; py "Risiko: likuiditas."].

Definition drawing_session : World :=
  {| http_get := fun _ _ => Returns quarters;
     llm_answer := fun n _ =>
       match drawing_answers !! n with
       | Some a => Returns a
       | None => Throws "APIStatusError"
       end;
     llm_prompts := [];
     page := [] |}.

(** Two quarters whose revenue is 2^53 + 1 in the first and null in the
    second. *)
Definition large_revenue_quarters : list record :=
  [quarter "2025-06-30" 9007199254740993 100 50 150;
   [("date"%string, JStr (py "2025-03-31")); ("revenue"%string, JNull);
    ("total_liabilities"%string, JInt 90);
    ("total_equity"%string, JInt 60);
    ("total_assets"%string, JInt 150)]].

End Example.

(* ===================================================================== *)
(** * Notions used to state further properties *)
(* ===================================================================== *)

(** A replacement field of a template that is a plain variable name: no
    conversion, format specification, attribute or index, and a keyword,
    not a position. *)
Definition plain_name (name : str) : bool :=
  negb (existsb (Text.in_chars (py "!:.[]")) name)
  && existsb PromptTemplate.ascii_nondigit name
  && PromptTemplate.brace_free name.

(** [w'] is [w] after at most [n] more prompts and [m] more page elements:
    nothing sent or drawn before is removed or changed, and the services
    answer as before. *)
Definition extends (n m : nat) (w w' : World) : Prop :=
  http_get w' = http_get w
  /\ llm_answer w' = llm_answer w
  /\ (exists sent, llm_prompts w' = llm_prompts w ++ sent
                   /\ (length sent <= n)%nat)
  /\ (exists drawn, page w' = page w ++ drawn /\ (length drawn <= m)%nat).

(** An action that, from any world, sends at most [n] prompts and draws at
    most [m] elements. *)
Definition within {A} (n m : nat) (c : M A) : Prop :=
  forall w, extends n m w (run c w).2.

(** ** The company selector

    [sidebar_selector] offers one option per company,
    [symbol + " - " + company_name] (line 54), and returns
    [selected_company.split(" - ")[0]] (line 59). *)

(** The scan of [str.split(sep)] for a non-empty [sep]: the text is cut at
    the occurrences of [sep], taken left to right without overlap; [cur]
    is the piece being read and [skip] the number of characters of the
    separator still to pass. *)
Fixpoint split_scan (sep : str) (skip : nat) (cur : str) (s : str)
    : list str :=
  match s with
  | [] => [cur]
  | c :: s' =>
      match skip with
      | S k => split_scan sep k cur s'
      | O =>
          if Text.starts_with sep s
          then cur :: split_scan sep (Nat.pred (length sep)) [] s'
          else split_scan sep 0 (cur ++ [c]) s'
      end
  end.

(** [s.split(sep)]; an empty separator is a [ValueError]. *)
Definition str_split (sep s : str) : result (list str) :=
  match sep with
  | [] => Raise (LibraryError "ValueError")
  | _ :: _ => Ok (split_scan sep 0 [] s)
  end.

(** One entry of [company_options], for a company whose symbol and name
    are strings. *)
Definition company_option (symbol company_name : str) : str :=
  symbol ++ py " - " ++ company_name.

(** What [sidebar_selector] returns for the chosen option. *)
Definition selected_symbol (selected_company : str) : result str :=
  parts ← str_split (py " - ") selected_company;
  match parts with
  | first :: _ => Ok first
  | [] => Raise (LibraryError "IndexError")
  end.

(* ===================================================================== *)
(** * Properties *)
(* ===================================================================== *)

(** ** Text *)
Module TextFacts.
Import Text.

Lemma lstrip_with_clean p s : clean_left p (lstrip_with p s).
Proof.
  induction s as [|c s IH]; simpl; [exact I|].
  destruct (p c) eqn:E; [exact IH | exact E].
Qed.

Lemma lstrip_with_id p s : clean_left p s -> lstrip_with p s = s.
Proof. destruct s as [|c s]; simpl; [reflexivity|]. now intros ->. Qed.

Lemma lstrip_with_suffix p s : exists u, s = u ++ lstrip_with p s.
Proof.
  induction s as [|c s [u IH]]; simpl.
  - now exists [].
  - destruct (p c).
    + exists (c :: u). simpl. now f_equal.
    + now exists [].
Qed.

Lemma rstrip_with_clean p s : clean_right p (rstrip_with p s).
Proof.
  unfold clean_right, rstrip_with. rewrite rev_involutive.
  apply lstrip_with_clean.
Qed.

Lemma rstrip_with_id p s : clean_right p s -> rstrip_with p s = s.
Proof.
  unfold clean_right, rstrip_with. intros Hc.
  rewrite (lstrip_with_id _ _ Hc). apply rev_involutive.
Qed.

Lemma clean_left_app_nonempty p s t :
  s <> [] -> clean_left p (s ++ t) -> clean_left p s.
Proof. destruct s; simpl; [congruence | auto]. Qed.

Lemma clean_left_prefix p s t : clean_left p (s ++ t) -> clean_left p s.
Proof. destruct s; simpl; auto. Qed.

Lemma rstrip_with_prefix p s : exists u, s = rstrip_with p s ++ u.
Proof.
  unfold rstrip_with.
  destruct (lstrip_with_suffix p (rev s)) as [u Hu].
  exists (rev u).
  rewrite <- rev_app_distr, <- Hu. symmetry. apply rev_involutive.
Qed.

Lemma rstrip_with_keeps_clean_left p s :
  clean_left p s -> clean_left p (rstrip_with p s).
Proof.
  intros Hc. destruct (rstrip_with_prefix p s) as [u Hu].
  rewrite Hu in Hc. exact (clean_left_prefix _ _ _ Hc).
Qed.

Lemma strip_with_clean_left p s : clean_left p (strip_with p s).
Proof. apply rstrip_with_keeps_clean_left, lstrip_with_clean. Qed.

Lemma strip_with_clean_right p s : clean_right p (strip_with p s).
Proof. apply rstrip_with_clean. Qed.

Lemma strip_with_id p s :
  clean_left p s -> clean_right p s -> strip_with p s = s.
Proof.
  intros Hl Hr. unfold strip_with.
  rewrite (lstrip_with_id _ _ Hl). now apply rstrip_with_id.
Qed.

Lemma strip_with_idempotent p s :
  strip_with p (strip_with p s) = strip_with p s.
Proof.
  apply strip_with_id;
    [apply strip_with_clean_left | apply strip_with_clean_right].
Qed.

(** Stripping stops at a character that is kept. *)
Lemma lstrip_with_app_keep p a c b :
  p c = false -> lstrip_with p (a ++ c :: b) = lstrip_with p a ++ c :: b.
Proof.
  intros Hc. induction a as [|x a IH]; simpl.
  - now rewrite Hc.
  - destruct (p x); [exact IH | reflexivity].
Qed.

Lemma rstrip_with_app_keep p a c b :
  p c = false -> rstrip_with p (a ++ c :: b) = a ++ c :: rstrip_with p b.
Proof.
  intros Hc. unfold rstrip_with.
  rewrite rev_app_distr. simpl. rewrite <- app_assoc. simpl.
  rewrite (lstrip_with_app_keep p (rev b) c (rev a) Hc).
  rewrite rev_app_distr. simpl. rewrite rev_involutive.
  now rewrite <- app_assoc.
Qed.

Lemma strip_with_app_keep p a c m d b :
  p c = false -> p d = false ->
  strip_with p (a ++ c :: m ++ d :: b)
  = lstrip_with p a ++ c :: m ++ d :: rstrip_with p b.
Proof.
  intros Hc Hd. unfold strip_with.
  rewrite lstrip_with_app_keep by exact Hc.
  replace (lstrip_with p a ++ c :: m ++ d :: b)
    with ((lstrip_with p a ++ c :: m) ++ d :: b)
    by now rewrite <- app_assoc.
  rewrite rstrip_with_app_keep by exact Hd.
  now rewrite <- app_assoc.
Qed.

Lemma starts_with_spec old s :
  starts_with old s = true <-> exists b, s = old ++ b.
Proof.
  revert s. induction old as [|p old IH]; intros s; simpl.
  - split; [intros _; now exists s | reflexivity].
  - destruct s as [|c s].
    + split; [discriminate | intros [b Hb]; discriminate].
    + rewrite andb_true_iff, N.eqb_eq, IH. split.
      * intros [-> [b ->]]. now exists b.
      * intros [b Hb]. injection Hb as -> ->. split; [reflexivity | now exists b].
Qed.

Lemma replace_scan_absent old new s :
  ~ occurs old s -> replace_scan old new 0 s = s.
Proof.
  induction s as [|c s IH]; intros Hno; simpl; [reflexivity|].
  destruct (starts_with old (c :: s)) eqn:E.
  - exfalso. apply Hno. apply starts_with_spec in E as [b Hb].
    exists [], b. exact Hb.
  - f_equal. apply IH. intros (a & b & Hab). apply Hno.
    exists (c :: a), b. simpl. now f_equal.
Qed.

Lemma contains_spec old s : contains old s = true <-> occurs old s.
Proof.
  induction s as [|c s IH]; simpl.
  - rewrite orb_false_r, starts_with_spec. split.
    + intros [b Hb]. now exists [], b.
    + intros (a & b & Hab). destruct a; [now exists b|discriminate].
  - rewrite orb_true_iff, starts_with_spec, IH. split.
    + intros [[b Hb] | (a & b & Hab)].
      * now exists [], b.
      * exists (c :: a), b. simpl. now f_equal.
    + intros (a & b & Hab). destruct a as [|x a].
      * left. now exists b.
      * right. injection Hab as -> ->. now exists a, b.
Qed.
End TextFacts.
Import Text TextFacts.

(** ** The sanitizer *)

Lemma python_no_straddle a b :
  a <> [] ->
  starts_with python_word (a ++ python_word ++ b) = starts_with python_word a.
Proof.
  intros Ha.
  destruct a as [|c1 [|c2 [|c3 [|c4 [|c5 [|c6 a]]]]]]; [congruence|..];
    cbn; rewrite ?andb_false_r; reflexivity.
Qed.

Lemma replace_scan_python_app b a : forall k,
  (k <= length a)%nat ->
  replace_scan python_word [] k (a ++ python_word ++ b)
  = replace_scan python_word [] k a ++ replace_scan python_word [] 0 b.
Proof.
  induction a as [|c a IH]; intros k Hk.
  - assert (k = 0%nat) as -> by (simpl in Hk; lia). reflexivity.
  - destruct k as [|k].
    + change ((c :: a) ++ python_word ++ b) with (c :: (a ++ python_word ++ b)).
      cbn [replace_scan].
      change (c :: (a ++ python_word ++ b)) with ((c :: a) ++ python_word ++ b).
      rewrite python_no_straddle by discriminate.
      destruct (starts_with python_word (c :: a)) eqn:E.
      * apply starts_with_spec in E as [t Ht].
        cbn [app]. apply IH.
        assert (length (c :: a) = length (python_word ++ t)) as Hl by now rewrite Ht.
        rewrite length_app in Hl. cbn in Hl. cbn. lia.
      * cbn [app]. f_equal. apply IH. lia.
    + cbn [app replace_scan]. apply IH. simpl in Hk. lia.
Qed.

Lemma replace_python_app a b :
  replace python_word [] (a ++ python_word ++ b)
  = replace python_word [] a ++ replace python_word [] b.
Proof. apply (replace_scan_python_app b a 0%nat). lia. Qed.

Lemma clean_python_code_at_python pre post :
  clean_python_code (pre ++ python_word ++ post)
  = strip (replace python_word []
             (lstrip_with (in_chars backticks) (lstrip_with isspace pre))
           ++ replace python_word []
                (rstrip_with (in_chars backticks) (rstrip_with isspace post))).
Proof.
  unfold clean_python_code. f_equal.
  rewrite <- replace_python_app. f_equal.
  unfold strip, strip_chars.
  change (pre ++ python_word ++ post)
    with (pre ++ 112 :: py "ytho" ++ 110 :: post).
  rewrite strip_with_app_keep by reflexivity.
  rewrite strip_with_app_keep by reflexivity.
  reflexivity.
Qed.

Lemma in_chars_backticks c : in_chars backticks c = in_chars [96] c.
Proof.
  change backticks with [96; 96; 96]. unfold in_chars. simpl.
  destruct (c =? 96); reflexivity.
Qed.

Lemma clean_left_backticks (s : str) :
  head s <> Some 96 -> clean_left (in_chars backticks) s.
Proof.
  intros Hh. destruct s as [|x s]; [exact I|].
  unfold clean_left. rewrite in_chars_backticks.
  unfold in_chars. simpl. rewrite orb_false_r.
  apply N.eqb_neq. intros ->. now apply Hh.
Qed.

Lemma head_rev (s : str) : head (rev s) = last s.
Proof.
  rewrite <- (rev_involutive s) at 2.
  generalize (rev s) as t. intros t. destruct t as [|x t]; [reflexivity|].
  simpl. rewrite last_snoc. reflexivity.
Qed.

Lemma clean_right_backticks (s : str) :
  last s <> Some 96 -> clean_right (in_chars backticks) s.
Proof.
  intros Hl. apply clean_left_backticks. now rewrite head_rev.
Qed.

(** C3, as stated, fails: sanitizing the output of the sanitizer changes it
    again, once when removing "python" joins the two halves of another
    "python", once when the first pass uncovers a backtick that only the
    second pass strips. *)
Lemma clean_python_code_not_idempotent :
  clean_python_code (clean_python_code (py "pytpythonhon"))
    <> clean_python_code (py "pytpythonhon")
  /\ clean_python_code (clean_python_code (py "` `fig = 1"))
    <> clean_python_code (py "` `fig = 1").
Proof. split; vm_compute; discriminate. Qed.

(** C3, amended: sanitizing the sanitizer's output is a no-op whenever that
    output neither begins nor ends with a backtick and contains no
    occurrence of "python". *)
Theorem clean_python_code_idempotent_on_settled_output (x : str) :
  head (clean_python_code x) <> Some 96 ->
  last (clean_python_code x) <> Some 96 ->
  contains python_word (clean_python_code x) = false ->
  clean_python_code (clean_python_code x) = clean_python_code x.
Proof.
  intros Hh Hl Hc.
  set (y := clean_python_code x) in *.
  assert (strip y = y) as Hs.
  { unfold y, clean_python_code, strip. apply strip_with_idempotent. }
  unfold clean_python_code at 1.
  rewrite Hs.
  unfold strip_chars.
  rewrite strip_with_id;
    [ | now apply clean_left_backticks | now apply clean_right_backticks ].
  change (replace python_word [] y) with (replace_scan python_word [] 0 y).
  rewrite replace_scan_absent; [exact Hs|].
  intros Ho. apply contains_spec in Ho. congruence.
Qed.

(** The sanitized form of a fenced program is a fixed point. *)
Lemma clean_python_code_idempotent_on_settled_output_witness :
  clean_python_code (clean_python_code (py "```python
fig = 1
```"))
  = clean_python_code (py "```python
fig = 1
```").
Proof.
  apply clean_python_code_idempotent_on_settled_output;
    vm_compute; (discriminate || reflexivity).
Defined.

(** C9: every occurrence of "python" is removed wherever it stands: an
    input [pre ++ "python" ++ post] is sanitized to what remains of [pre] and
    of [post], the occurrence between them gone; so the text of a string
    literal, an import or an identifier that contains the word is changed. *)
Theorem clean_python_code_removes_python_anywhere :
  (forall pre post : str,
     clean_python_code (pre ++ python_word ++ post)
     = strip (replace python_word []
                (lstrip_with (in_chars backticks) (lstrip_with isspace pre))
              ++ replace python_word []
                   (rstrip_with (in_chars backticks) (rstrip_with isspace post))))
  /\ clean_python_code (py "kind = 'python'") = py "kind = ''"
  /\ clean_python_code (py "import pythonlib") = py "import lib"
  /\ clean_python_code (py "x = 1; pythonic = x + 1; fig = pythonic")
     = py "x = 1; ic = x + 1; fig = ic".
Proof.
  split; [exact clean_python_code_at_python|].
  repeat split; vm_compute; reflexivity.
Qed.

(** ** The result monad, frames and records *)
Lemma bind_Ok {A B} (m : result A) (f : A -> result B) b :
  m ≫= f = Ok b <-> exists a, m = Ok a /\ f a = Ok b.
Proof.
  destruct m as [a|e]; cbn; split.
  - intros Hf. now exists a.
  - now intros (a' & [= <-] & Hf).
  - discriminate.
  - now intros (a' & [=] & _).
Qed.

Lemma bind_Raise {A B} (m : result A) (f : A -> result B) e :
  m ≫= f = Raise e <-> m = Raise e \/ exists a, m = Ok a /\ f a = Raise e.
Proof.
  destruct m as [a|e']; cbn; split.
  - intros Hf. right. now exists a.
  - intros [[=] | (a' & [= <-] & Hf)]. exact Hf.
  - intros [= ->]. now left.
  - intros [[= ->] | (a' & [=] & _)]. reflexivity.
Qed.

Lemma of_outcome_not_KeyError {A} (o : outcome A) k :
  of_outcome o <> Raise (KeyError k).
Proof. destruct o; discriminate. Qed.

Lemma mapM_Ok_Forall2 {A B} (f : A -> result B) l ys :
  mapM f l = Ok ys <-> Forall2 (fun x y => f x = Ok y) l ys.
Proof.
  revert ys. induction l as [|x l IH]; intros ys; cbn.
  - split.
    + intros [= <-]. constructor.
    + intros Hf. inversion Hf. reflexivity.
  - split.
    + intros Hm. apply bind_Ok in Hm as (y & Hy & Hm).
      apply bind_Ok in Hm as (ys' & Hys & [= <-]).
      constructor; [exact Hy | now apply IH].
    + intros Hf. inversion Hf as [|? y ? ys' Hy Hys]; subst.
      apply bind_Ok. exists y. split; [exact Hy|].
      apply bind_Ok. exists ys'. split; [now apply IH | reflexivity].
Qed.

Lemma mapM_Raise_not_KeyError {A B} (f : A -> result B) l k :
  (forall x, f x <> Raise (KeyError k)) -> mapM f l <> Raise (KeyError k).
Proof.
  intros Hf. induction l as [|x l IH]; cbn; [discriminate|].
  intros Hm. apply bind_Raise in Hm as [Hm | (y & _ & Hm)].
  - now apply (Hf x).
  - apply bind_Raise in Hm as [Hm | (ys & _ & [=])]. now apply IH.
Qed.

(** ** Frames *)

Section Frames.
Implicit Types (df : DataFrame) (s : Series) (l c : string).

Lemma column_setitem_eq df l s : column (setitem df l s) l = Some s.
Proof.
  unfold column. induction df as [|[l' s'] df IH]; cbn.
  - now rewrite bool_decide_eq_true_2.
  - destruct (bool_decide (l' = l)) eqn:E; cbn; rewrite ?E; cbn; auto.
Qed.

Lemma column_setitem_ne df l c s :
  l <> c -> column (setitem df l s) c = column df c.
Proof.
  intros Hne. unfold column. induction df as [|[l' s'] df IH]; cbn.
  - now rewrite bool_decide_eq_false_2.
  - destruct (bool_decide (l' = l)) eqn:E; cbn.
    + apply bool_decide_eq_true in E as ->.
      now rewrite !bool_decide_eq_false_2.
    + destruct (bool_decide (l' = c)); cbn; auto.
Qed.

Lemma elem_of_labels_setitem df l c s :
  c ∈ labels (setitem df l s) <-> c ∈ labels df \/ c = l.
Proof.
  unfold labels. induction df as [|[l' s'] df IH]; cbn.
  - rewrite list_elem_of_singleton. rewrite elem_of_nil. tauto.
  - destruct (bool_decide (l' = l)) eqn:E; cbn.
    + apply bool_decide_eq_true in E as ->.
      rewrite !elem_of_cons. intuition.
    + rewrite !elem_of_cons, IH. tauto.
Qed.

Lemma setitem_setitem df l s s' :
  setitem (setitem df l s) l s' = setitem df l s'.
Proof.
  induction df as [|[l' c] df IH]; cbn.
  - now rewrite bool_decide_eq_true_2.
  - destruct (bool_decide (l' = l)) eqn:E; cbn; rewrite E;
      [reflexivity | now rewrite IH].
Qed.

Lemma getitem_Ok df l s : getitem df l = Ok s <-> column df l = Some s.
Proof.
  unfold getitem. destruct (column df l); split; intros Heq;
    inversion Heq; reflexivity.
Qed.

Lemma getitem_Raise df l e :
  getitem df l = Raise e <-> e = KeyError l /\ column df l = None.
Proof.
  unfold getitem. destruct (column df l); split.
  - discriminate.
  - intros [_ [=]].
  - intros [= <-]. split; reflexivity.
  - intros [-> _]. reflexivity.
Qed.

Lemma column_map_labels (f : string -> Series) (ls : list string) c :
  column (map (fun l => (l, f l)) ls) c
  = if bool_decide (c ∈ ls) then Some (f c) else None.
Proof.
  unfold column. induction ls as [|l ls IH]; cbn; [reflexivity|].
  destruct (bool_decide (l = c)) eqn:E; cbn.
  - apply bool_decide_eq_true in E as ->.
    rewrite bool_decide_eq_true_2 by left. reflexivity.
  - apply bool_decide_eq_false in E. rewrite IH.
    destruct (bool_decide (c ∈ ls)) eqn:E'.
    + apply bool_decide_eq_true in E'.
      rewrite bool_decide_eq_true_2 by now right. reflexivity.
    + apply bool_decide_eq_false in E'.
      rewrite bool_decide_eq_false_2; [reflexivity|].
      rewrite elem_of_cons. intros [-> | Hin]; tauto.
Qed.

Lemma labels_map_labels (f : string -> Series) (ls : list string) :
  labels (map (fun l => (l, f l)) ls) = ls.
Proof. unfold labels. rewrite map_map. cbn. apply map_id. Qed.
End Frames.

(** ** Records and the frame built from them *)

Lemma record_get_None key (r : record) :
  record_get key r = None <-> key ∉ map fst r.
Proof.
  unfold record_get. induction r as [|[k j] r IH]; cbn.
  - split; [intros _; apply not_elem_of_nil | reflexivity].
  - destruct (bool_decide (k = key)) eqn:E; cbn.
    + apply bool_decide_eq_true in E as ->. split; [discriminate|].
      intros Hn. exfalso. apply Hn. left.
    + apply bool_decide_eq_false in E. rewrite IH, not_elem_of_cons.
      split; [intros Hn; split; [congruence | exact Hn] | tauto].
Qed.

Lemma elem_of_fold_add_label (r : record) acc c :
  c ∈ fold_left add_label r acc <-> c ∈ acc \/ c ∈ map fst r.
Proof.
  revert acc. induction r as [|[k j] r IH]; intros acc; cbn.
  - rewrite elem_of_nil. tauto.
  - rewrite IH. unfold add_label. cbn.
    destruct (bool_decide (k ∈ acc)) eqn:E.
    + apply bool_decide_eq_true in E. rewrite elem_of_cons.
      split; [tauto|]. intros [Ha | [-> | Hr]]; tauto.
    + rewrite elem_of_app, list_elem_of_singleton, elem_of_cons. tauto.
Qed.

Lemma elem_of_column_labels_from (recs : list record) acc c :
  c ∈ fold_left (fun acc r => fold_left add_label r acc) recs acc
  <-> c ∈ acc \/ exists r, r ∈ recs /\ c ∈ map fst r.
Proof.
  revert acc. induction recs as [|r recs IH]; intros acc; cbn.
  - split; [tauto|]. intros [Ha | (r & Hr & _)]; [exact Ha|].
    now apply elem_of_nil in Hr.
  - rewrite IH, elem_of_fold_add_label. split.
    + intros [[Ha | Hr] | (r' & Hr' & Hc)].
      * now left.
      * right. exists r. split; [left | exact Hr].
      * right. exists r'. split; [now right | exact Hc].
    + intros [Ha | (r' & Hr' & Hc)]; [tauto|].
      apply elem_of_cons in Hr' as [-> | Hr'].
      * tauto.
      * right. now exists r'.
Qed.

Lemma elem_of_column_labels (recs : list record) c :
  c ∈ column_labels recs <-> exists r, r ∈ recs /\ record_get c r <> None.
Proof.
  unfold column_labels. rewrite elem_of_column_labels_from.
  rewrite elem_of_nil. split.
  - intros [[] | (r & Hr & Hc)]. exists r. split; [exact Hr|].
    rewrite record_get_None. tauto.
  - intros (r & Hr & Hc). right. exists r. split; [exact Hr|].
    destruct (decide (c ∈ map fst r)) as [Hin | Hn]; [exact Hin|].
    apply record_get_None in Hn. congruence.
Qed.

Lemma column_of_records (recs : list record) c :
  column (DataFrame_of_records recs) c
  = if bool_decide (c ∈ column_labels recs)
    then Some (Infer.maybe_convert_objects (map (cell c) recs))
    else None.
Proof.
  unfold DataFrame_of_records.
  apply (column_map_labels
           (fun l => Infer.maybe_convert_objects (map (cell l) recs))).
Qed.

Lemma column_of_records_None (recs : list record) c :
  column (DataFrame_of_records recs) c = None
  <-> forall r, r ∈ recs -> record_get c r = None.
Proof.
  rewrite column_of_records.
  destruct (bool_decide (c ∈ column_labels recs)) eqn:E.
  - apply bool_decide_eq_true, elem_of_column_labels in E as (r & Hr & Hc).
    split; [discriminate|]. intros Hall. now apply Hall in Hr.
  - apply bool_decide_eq_false in E. split; [|reflexivity].
    intros _ r Hr. destruct (record_get c r) eqn:Hg; [|reflexivity].
    exfalso. apply E, elem_of_column_labels. exists r. split; [exact Hr|].
    congruence.
Qed.

(** ** Dtype inference *)

Module InferFacts.
Import Infer.

Lemma scan_only_ints l : forall s s',
  scan s l = Some s' -> only_ints s' -> only_ints s /\ Forall is_int l.
Proof.
  induction l as [|o l IH]; intros s s' Hs Ho; cbn in Hs.
  - injection Hs as <-. split; [exact Ho | constructor].
  - destruct o as [|z|x|t]; [| | |discriminate].
    + apply IH in Hs as [(Hn & _) _]; [|exact Ho]. discriminate.
    + destruct (null_ s) eqn:En.
      * apply IH in Hs as [(Hn & _) _]; [|exact Ho]. discriminate.
      * destruct (_ || _ || _); [discriminate|].
        apply IH in Hs as [(Hn & Hna & Hf) Hl]; [|exact Ho].
        cbn in Hn, Hna, Hf.
        split; [now repeat split | constructor; [now exists z | exact Hl]].
    + destruct (Float64.is_nan x);
        apply IH in Hs as [(_ & Hna & Hf) _]; try exact Ho; discriminate.
Qed.

Lemma map_PyInt_as_int l : Forall is_int l -> map PyInt (map as_int l) = l.
Proof.
  induction 1 as [|o l [z ->] _ IH]; cbn; [reflexivity | now rewrite IH].
Qed.

(** The column built from a list of objects: its dtype is never
    [Datetime64], and row [i] holds object [i], as it is or as a float. *)
Lemma maybe_convert_objects_cases l :
  maybe_convert_objects l = Object l
  \/ maybe_convert_objects l = Float64 (map as_float l)
  \/ (Forall is_int l
      /\ (maybe_convert_objects l = Int64 (map as_int l)
          \/ maybe_convert_objects l = UInt64 (map as_int l))).
Proof.
  unfold maybe_convert_objects.
  destruct (scan nothing l) as [s|] eqn:Hs; [|now left].
  destruct (null_ s || nan_ s) eqn:E1.
  { destruct (float_ s || int_ s || nan_ s); auto. }
  destruct (float_ s) eqn:E2; [auto|].
  destruct (int_ s); [|now left].
  apply orb_false_iff in E1 as [En Ena].
  destruct (scan_only_ints l nothing s Hs) as [_ Hl]; [now repeat split|].
  right. right. split; [exact Hl|]. destruct (uint_ s); auto.
Qed.

Lemma boxed_maybe_convert_objects l :
  Forall2 (fun o b => b = o \/ b = PyFloat (as_float o))
    l (boxed (maybe_convert_objects l)).
Proof.
  destruct (maybe_convert_objects_cases l)
    as [-> | [-> | [Hl [-> | ->]]]]; cbn.
  - apply Forall2_same_length_lookup_2; [reflexivity|].
    intros i x y Hx Hy. left. congruence.
  - rewrite map_map. apply Forall2_fmap_r, Forall_Forall2_diag.
    apply Forall_forall. auto.
  - rewrite (map_PyInt_as_int l Hl).
    apply Forall_Forall2_diag, Forall_forall. auto.
  - rewrite (map_PyInt_as_int l Hl).
    apply Forall_Forall2_diag, Forall_forall. auto.
Qed.

Lemma maybe_convert_objects_not_datetime l ts :
  maybe_convert_objects l <> Datetime64 ts.
Proof.
  destruct (maybe_convert_objects_cases l)
    as [-> | [-> | [_ [-> | ->]]]]; discriminate.
Qed.

(** A scan that runs to the end has met no text. *)
Lemma scan_Some_no_text l : forall s s',
  scan s l = Some s' -> Forall (fun o => forall t, o <> PyStr t) l.
Proof.
  induction l as [|o l IH]; intros s s' Hs; [constructor|].
  cbn in Hs. destruct o as [|z|x|t]; [| | |discriminate].
  - constructor; [discriminate | eauto].
  - constructor; [discriminate|].
    destruct (null_ s); [eauto|].
    destruct (_ || _ || _); [discriminate | eauto].
  - constructor; [discriminate|]. destruct (Float64.is_nan x); eauto.
Qed.

(** Row [i] of the column built from a list of objects holds object [i]
    as it is, or as a float when the column became a float column, which
    a column with a text in it never does. *)
Lemma boxed_maybe_convert_objects_text l :
  Forall2 (fun o b => b = o
                      \/ (b = PyFloat (as_float o) /\ forall t, o <> PyStr t))
    l (boxed (maybe_convert_objects l)).
Proof.
  destruct (maybe_convert_objects_cases l)
    as [E | [E | [Hl [E | E]]]]; rewrite E; cbn.
  - apply Forall_Forall2_diag, Forall_forall. auto.
  - assert (Forall (fun o => forall t, o <> PyStr t) l) as Hno.
    { unfold maybe_convert_objects in E.
      destruct (scan nothing l) as [s|] eqn:Hs; [|discriminate].
      exact (scan_Some_no_text l _ _ Hs). }
    rewrite map_map. apply Forall2_fmap_r, Forall_Forall2_diag.
    eapply Forall_impl; [exact Hno|]. cbn. auto.
  - rewrite (map_PyInt_as_int l Hl).
    apply Forall_Forall2_diag, Forall_forall. auto.
  - rewrite (map_PyInt_as_int l Hl).
    apply Forall_Forall2_diag, Forall_forall. auto.
Qed.

(** Integers of the signed 64-bit range are scanned to the end, and
    leave the scan as one that saw signed integers only. *)
Lemma scan_int64 zs : forall s,
  null_ s = false -> uint_ s = false ->
  Forall (fun z => INT64_MIN <= z <= INT64_MAX)%Z zs ->
  exists s',
    scan s (map PyInt zs) = Some s'
    /\ null_ s' = false /\ nan_ s' = nan_ s /\ float_ s' = float_ s
    /\ uint_ s' = false /\ (zs <> [] -> int_ s' = true).
Proof.
  induction zs as [|z zs IH]; intros s Hn Hu Hr.
  - exists s. repeat split; try assumption. congruence.
  - apply Forall_cons in Hr as [[Hlo Hhi] Hr].
    cbn [map scan]. rewrite Hn.
    assert ((INT64_MAX <? z)%Z = false) as Hmax by (apply Z.ltb_ge; exact Hhi).
    assert ((UINT64_MAX <? z)%Z = false) as Humax.
    { apply Z.ltb_ge. etransitivity; [exact Hhi|]. vm_compute. discriminate. }
    assert ((z <? INT64_MIN)%Z = false) as Hmin by (apply Z.ltb_ge; exact Hlo).
    unfold saw_int. cbn [uint_ sint_]. rewrite Hu, Hmax, Humax, Hmin. cbn.
    destruct (IH {| null_ := null_ s; nan_ := nan_ s; float_ := float_ s;
                    int_ := true; uint_ := false;
                    sint_ := sint_ s || ((INT64_MIN <=? z) && (z <? 0))%Z |})
      as (s' & Hs' & Hn' & Hna' & Hf' & Hu' & Hi'); [exact Hn | reflexivity | exact Hr |].
    exists s'. repeat split; try assumption.
    intros _. destruct zs as [|z' zs]; [|apply Hi'; discriminate].
    cbn in Hs'. now injection Hs' as <-.
Qed.

(** A column of integers of the signed 64-bit range is an integer column
    with these integers. *)
Lemma maybe_convert_objects_int64 zs :
  zs <> [] ->
  Forall (fun z => INT64_MIN <= z <= INT64_MAX)%Z zs ->
  maybe_convert_objects (map PyInt zs) = Int64 zs.
Proof.
  intros Hne Hr. unfold maybe_convert_objects.
  destruct (scan_int64 zs nothing eq_refl eq_refl Hr)
    as (s' & -> & Hn & Hna & Hf & Hu & Hi).
  cbn in Hna, Hf. rewrite Hn, Hna, Hf, Hu, (Hi Hne). cbn.
  f_equal. rewrite map_map. apply map_id.
Qed.
End InferFacts.

(** ** Metric derivation *)

Lemma elem_of_required_fields k :
  k ∈ required_fields
  <-> (k = "date" \/ k = "total_liabilities" \/ k = "total_equity"
       \/ k = "revenue" \/ k = "total_assets")%string.
Proof.
  unfold required_fields. rewrite !elem_of_cons, elem_of_nil. tauto.
Qed.

Section Derivation.
Context `{Runtime}.

Lemma to_datetime_Ok raw parsed :
  to_datetime raw = Ok parsed ->
  exists ts, parsed = Datetime64 ts
    /\ (raw = Datetime64 ts
        \/ Forall2 (fun o t => of_outcome (to_datetime_element raw o) = Ok t)
             (boxed raw) ts).
Proof.
  intros Hp.
  assert (forall r, (ts ← mapM (fun o => of_outcome (to_datetime_element r o))
                           (boxed r); Ok (Datetime64 ts)) = Ok parsed ->
          exists ts, parsed = Datetime64 ts
            /\ Forall2 (fun o t => of_outcome (to_datetime_element r o) = Ok t)
                 (boxed r) ts) as Hgen.
  { intros r Hb. apply bind_Ok in Hb as (ts & Hm & [= <-]).
    exists ts. split; [reflexivity|]. now apply mapM_Ok_Forall2. }
  destruct raw; cbn in Hp;
    try (apply Hgen in Hp as (ts & -> & Hf); exists ts; now auto).
  injection Hp as <-. exists xs. auto.
Qed.

Lemma to_datetime_not_KeyError raw k : to_datetime raw <> Raise (KeyError k).
Proof.
  assert (forall r, (ts ← mapM (fun o => of_outcome (to_datetime_element r o))
                           (boxed r); Ok (Datetime64 ts))
                    <> Raise (KeyError k)) as Hgen.
  { intros r Hb. apply bind_Raise in Hb as [Hm | (ts & _ & [=])].
    revert Hm. apply mapM_Raise_not_KeyError.
    intros o. apply of_outcome_not_KeyError. }
  destruct raw; cbn; try apply Hgen. discriminate.
Qed.

Lemma normalize_dates_Ok financials dated :
  normalize_dates financials = Ok dated ->
  exists raw ts,
    column financials "date" = Some raw
    /\ to_datetime raw = Ok (Datetime64 ts)
    /\ dated = setitem financials "date"
                 (Object (map (strftime_cell (py "%m-%Y")) ts)).
Proof.
  unfold normalize_dates. intros Hn.
  apply bind_Ok in Hn as (raw & Hraw & Hn).
  apply bind_Ok in Hn as (parsed & Hparsed & Hn).
  apply bind_Ok in Hn as (date & Hdate & Hn).
  apply bind_Ok in Hn as (formatted & Hfmt & [= <-]).
  apply getitem_Ok in Hraw, Hdate.
  rewrite column_setitem_eq in Hdate. injection Hdate as <-.
  destruct (to_datetime_Ok _ _ Hparsed) as (ts & -> & _).
  cbn in Hfmt. injection Hfmt as <-.
  exists raw, ts. rewrite setitem_setitem. auto.
Qed.

Lemma normalize_dates_Raise_KeyError financials k :
  normalize_dates financials = Raise (KeyError k) ->
  k = "date"%string /\ column financials "date" = None.
Proof.
  unfold normalize_dates. intros Hn.
  apply bind_Raise in Hn as [Hn | (raw & _ & Hn)].
  { apply getitem_Raise in Hn as [[= ->] Hc]. auto. }
  apply bind_Raise in Hn as [Hn | (parsed & Hparsed & Hn)].
  { now apply to_datetime_not_KeyError in Hn. }
  apply bind_Raise in Hn as [Hn | (date & Hdate & Hn)].
  { apply getitem_Raise in Hn as [_ Hc].
    rewrite column_setitem_eq in Hc. discriminate. }
  apply getitem_Ok in Hdate. rewrite column_setitem_eq in Hdate.
  injection Hdate as <-.
  destruct (to_datetime_Ok _ _ Hparsed) as (ts & -> & _).
  apply bind_Raise in Hn as [Hn | (formatted & _ & [=])].
  discriminate.
Qed.

Lemma normalize_dates_column financials dated c :
  normalize_dates financials = Ok dated ->
  c <> "date"%string -> column dated c = column financials c.
Proof.
  intros Hn Hc. apply normalize_dates_Ok in Hn as (raw & ts & _ & _ & ->).
  apply column_setitem_ne. congruence.
Qed.

Lemma normalize_dates_labels financials dated c :
  normalize_dates financials = Ok dated ->
  c ∈ labels dated <-> c ∈ labels financials.
Proof.
  intros Hn. apply normalize_dates_Ok in Hn as (raw & ts & Hraw & _ & ->).
  rewrite elem_of_labels_setitem. split; [|tauto].
  intros [Hin | ->]; [exact Hin|].
  unfold column in Hraw. unfold labels.
  destruct (find _ financials) as [[l s]|] eqn:Hf; [|discriminate].
  apply find_some in Hf as [Hin Hl]. cbn in Hl.
  apply bool_decide_eq_true in Hl as <-.
  apply list_elem_of_In in Hin. now apply (list_elem_of_fmap_2 fst) in Hin.
Qed.

Lemma truediv_not_KeyError a b k : truediv a b <> Raise (KeyError k).
Proof.
  unfold truediv. destruct (float_values a), (float_values b);
    try apply of_outcome_not_KeyError; discriminate.
Qed.

Lemma truediv_numeric a b xs ys :
  float_values a = Some xs -> float_values b = Some ys ->
  truediv a b = Ok (Float64 (zip_with Float64.div xs ys)).
Proof. unfold truediv. now intros -> ->. Qed.

Lemma add_ratios_Ok dated df :
  add_ratios dated = Ok df ->
  exists tl te rev ta der at_,
    column dated "total_liabilities" = Some tl
    /\ column dated "total_equity" = Some te
    /\ truediv tl te = Ok der
    /\ column (setitem dated "DER" der) "revenue" = Some rev
    /\ column (setitem dated "DER" der) "total_assets" = Some ta
    /\ truediv rev ta = Ok at_
    /\ df = setitem (setitem dated "DER" der) "asset_turnover" at_.
Proof.
  unfold add_ratios. intros Ha.
  apply bind_Ok in Ha as (tl & Htl & Ha).
  apply bind_Ok in Ha as (te & Hte & Ha).
  apply bind_Ok in Ha as (der & Hder & Ha).
  apply bind_Ok in Ha as (rev & Hrev & Ha).
  apply bind_Ok in Ha as (ta & Hta & Ha).
  apply bind_Ok in Ha as (at_ & Hat & [= <-]).
  apply getitem_Ok in Htl, Hte, Hrev, Hta.
  exists tl, te, rev, ta, der, at_. auto 10.
Qed.

Lemma add_ratios_Raise_KeyError dated k :
  add_ratios dated = Raise (KeyError k) ->
  k ∈ required_fields /\ k <> "date"%string /\ column dated k = None.
Proof.
  unfold add_ratios. intros Ha.
  apply bind_Raise in Ha as [Ha | (tl & _ & Ha)].
  { apply getitem_Raise in Ha as [[= ->] Hc].
    split; [|split; [discriminate | exact Hc]].
    apply elem_of_required_fields. tauto. }
  apply bind_Raise in Ha as [Ha | (te & _ & Ha)].
  { apply getitem_Raise in Ha as [[= ->] Hc].
    split; [|split; [discriminate | exact Hc]].
    apply elem_of_required_fields. tauto. }
  apply bind_Raise in Ha as [Ha | (der & _ & Ha)].
  { now apply truediv_not_KeyError in Ha. }
  apply bind_Raise in Ha as [Ha | (rev & _ & Ha)].
  { apply getitem_Raise in Ha as [[= ->] Hc].
    rewrite column_setitem_ne in Hc by discriminate.
    split; [|split; [discriminate | exact Hc]].
    apply elem_of_required_fields. tauto. }
  apply bind_Raise in Ha as [Ha | (ta & _ & Ha)].
  { apply getitem_Raise in Ha as [[= ->] Hc].
    rewrite column_setitem_ne in Hc by discriminate.
    split; [|split; [discriminate | exact Hc]].
    apply elem_of_required_fields. tauto. }
  apply bind_Raise in Ha as [Ha | (at_ & _ & [=])].
  now apply truediv_not_KeyError in Ha.
Qed.

Lemma add_ratios_Ok_columns dated df k :
  add_ratios dated = Ok df ->
  k ∈ required_fields -> k <> "date"%string -> column dated k <> None.
Proof.
  intros Ha Hk Hne.
  apply add_ratios_Ok in Ha
    as (tl & te & rev & ta & der & at_ & Htl & Hte & _ & Hrev & Hta & _).
  rewrite column_setitem_ne in Hrev, Hta by discriminate.
  assert (k = "total_liabilities" \/ k = "total_equity"
          \/ k = "revenue" \/ k = "total_assets")%string
    as [-> | [-> | [-> | ->]]]
    by (apply elem_of_required_fields in Hk; tauto);
    congruence.
Qed.

(** Success of the derivation needs every required column. *)
Lemma derive_metrics_Ok_columns recs df k :
  derive_metrics recs = Ok df ->
  k ∈ required_fields -> column (DataFrame_of_records recs) k <> None.
Proof.
  unfold derive_metrics. intros Hd Hk.
  apply bind_Ok in Hd as (dated & Hn & Ha).
  destruct (decide (k = "date"%string)) as [-> | Hne].
  - apply normalize_dates_Ok in Hn as (raw & ts & Hraw & _). congruence.
  - rewrite <- (normalize_dates_column _ _ _ Hn Hne).
    now apply (add_ratios_Ok_columns _ df).
Qed.

Lemma derive_metrics_Raise_KeyError recs k :
  derive_metrics recs = Raise (KeyError k) ->
  k ∈ required_fields /\ column (DataFrame_of_records recs) k = None.
Proof.
  unfold derive_metrics. intros Hd.
  apply bind_Raise in Hd as [Hn | (dated & Hn & Ha)].
  - apply normalize_dates_Raise_KeyError in Hn as [-> Hc].
    split; [|exact Hc]. apply elem_of_required_fields. tauto.
  - apply add_ratios_Raise_KeyError in Ha as (Hk & Hne & Hc).
    split; [exact Hk|].
    now rewrite <- (normalize_dates_column _ _ _ Hn Hne).
Qed.
End Derivation.

Lemma div_by_zero (x y : Float64.t) :
  Float64.is_zero y = true ->
  Float64.div x y
  = if Float64.is_nan x || Float64.is_zero x then Float64.nan
    else Float64.inf (xorb (Float64.signbit x) (Float64.signbit y)).
Proof. destruct y; try discriminate. intros _. destruct x; reflexivity. Qed.

Section MetricClaims.
Context `{Runtime}.

(** C2, amended: when the four columns read by the ratios are numeric,
    metric derivation raises nothing at the divisions, whatever the
    denominators: DER and asset_turnover are the binary64 quotients, row
    by row.  Dividing by zero gives NaN when the numerator is zero or
    NaN and an infinity otherwise.  100 / 50 is 2.0 and 0 / 0 is NaN. *)
Theorem ratios_on_numeric_columns
    (recs : list record) (dated : DataFrame) (tl te rev ta : Series)
    (xs ys us vs : list Float64.t) :
  normalize_dates (DataFrame_of_records recs) = Ok dated ->
  column (DataFrame_of_records recs) "total_liabilities" = Some tl ->
  column (DataFrame_of_records recs) "total_equity" = Some te ->
  column (DataFrame_of_records recs) "revenue" = Some rev ->
  column (DataFrame_of_records recs) "total_assets" = Some ta ->
  float_values tl = Some xs -> float_values te = Some ys ->
  float_values rev = Some us -> float_values ta = Some vs ->
  derive_metrics recs
  = Ok (setitem
          (setitem dated "DER" (Float64 (zip_with Float64.div xs ys)))
          "asset_turnover" (Float64 (zip_with Float64.div us vs)))
  /\ (forall x y : Float64.t,
        Float64.is_zero y = true ->
        Float64.div x y
        = if Float64.is_nan x || Float64.is_zero x then Float64.nan
          else Float64.inf (xorb (Float64.signbit x) (Float64.signbit y)))
  /\ Float64.div (Float64.of_int 100) (Float64.of_int 50) = Float64.of_int 2
  /\ Float64.div (Float64.of_int 0) (Float64.of_int 0) = Float64.nan.
Proof.
  intros Hn Htl Hte Hrev Hta Hxs Hys Hus Hvs.
  split; [|split; [exact div_by_zero | split; reflexivity]].
  unfold derive_metrics. rewrite Hn. cbn [mbind result_bind].
  rewrite <- (normalize_dates_column _ _ "total_liabilities" Hn) in Htl
    by discriminate.
  rewrite <- (normalize_dates_column _ _ "total_equity" Hn) in Hte
    by discriminate.
  rewrite <- (normalize_dates_column _ _ "revenue" Hn) in Hrev
    by discriminate.
  rewrite <- (normalize_dates_column _ _ "total_assets" Hn) in Hta
    by discriminate.
  unfold add_ratios.
  apply getitem_Ok in Htl, Hte. rewrite Htl, Hte. cbn [mbind result_bind].
  rewrite (truediv_numeric _ _ _ _ Hxs Hys). cbn [mbind result_bind].
  rewrite <- (column_setitem_ne dated "DER" "revenue"
                (Float64 (zip_with Float64.div xs ys))) in Hrev
    by discriminate.
  rewrite <- (column_setitem_ne dated "DER" "total_assets"
                (Float64 (zip_with Float64.div xs ys))) in Hta
    by discriminate.
  apply getitem_Ok in Hrev, Hta. rewrite Hrev, Hta. cbn [mbind result_bind].
  rewrite (truediv_numeric _ _ _ _ Hus Hvs). reflexivity.
Qed.

(** C6, amended: metric derivation fails, producing no series, when a
    required field is absent from every record (so also when there is
    no record); and it raises [KeyError] for a field only then: a field
    absent from some records only is filled with NaN. *)
Theorem derive_metrics_missing_field (recs : list record) :
  (forall k : string,
     k ∈ required_fields ->
     (forall r, r ∈ recs -> record_get k r = None) ->
     exists e, derive_metrics recs = Raise e)
  /\ (forall k : string,
        derive_metrics recs = Raise (KeyError k) ->
        k ∈ required_fields
        /\ forall r, r ∈ recs -> record_get k r = None).
Proof.
  split.
  - intros k Hk Hall. apply column_of_records_None in Hall.
    destruct (derive_metrics recs) as [df|e] eqn:Hd; [|now exists e].
    now apply (derive_metrics_Ok_columns recs df k Hd) in Hk.
  - intros k Hd. apply derive_metrics_Raise_KeyError in Hd as [Hk Hc].
    split; [exact Hk|]. now apply column_of_records_None.
Qed.

(** C8, amended: metric derivation sorts nothing: the derived series has
    one row per fetched record, in the order of the fetched list; the
    date of row [i] is the month-year text of the date of record [i]. *)
Theorem derive_metrics_keeps_source_order
    (recs : list record) (df : DataFrame) :
  derive_metrics recs = Ok df ->
  exists (raw : Series) (ts : list (option Timestamp)),
    column (DataFrame_of_records recs) "date" = Some raw
    /\ Forall2
         (fun r t =>
            exists o : pyobj,
              (o = cell "date" r \/ o = PyFloat (Infer.as_float (cell "date" r)))
              /\ of_outcome (to_datetime_element raw o) = Ok t)
         recs ts
    /\ column df "date"
       = Some (Object (map (strftime_cell (py "%m-%Y")) ts)).
Proof.
  unfold derive_metrics. intros Hd.
  apply bind_Ok in Hd as (dated & Hn & Ha).
  apply normalize_dates_Ok in Hn as (raw & ts & Hraw & Hts & ->).
  apply add_ratios_Ok in Ha
    as (tl & te & rev & ta & der & at_ & _ & _ & _ & _ & _ & _ & ->).
  exists raw, ts. split; [exact Hraw|]. split.
  - rewrite column_of_records in Hraw.
    destruct (bool_decide _); [|discriminate]. injection Hraw as <-.
    apply to_datetime_Ok in Hts as (ts' & [= <-] & [Hdt | Hf]).
    { now apply InferFacts.maybe_convert_objects_not_datetime in Hdt. }
    pose proof (InferFacts.boxed_maybe_convert_objects
                  (map (cell "date") recs)) as Hb.
    apply Forall2_fmap_l in Hb.
    eapply Forall2_trans; [| exact Hb | exact Hf].
    cbn. intros r o t Ho Ht. now exists o.
  - rewrite !column_setitem_ne by discriminate.
    apply column_setitem_eq.
Qed.

(** A row holds the field of its record. *)
Lemma held_as_cell c r b :
  b = cell c r
  \/ (b = PyFloat (Infer.as_float (cell c r))
      /\ forall t, cell c r <> PyStr t) ->
  held_as c r b.
Proof.
  unfold held_as, cell.
  destruct (record_get c r) as [[|z|x|t]|]; cbn;
    intros [-> | [-> Hno]]; auto.
  now destruct (Hno t).
Qed.

(** C10, amended: metric derivation leaves every column other than
    [date], [DER] and [asset_turnover] as the frame built from the fetched
    records has it, and the only labels added are [DER] and
    [asset_turnover].  Row [i] of [revenue], [total_liabilities],
    [total_equity] and [total_assets] holds the field of record [i]: as it
    is, or, in a column that became a float column, converted to a float
    (an integer rounded to the nearest float, null and a missing field as
    NaN).  When the field is an integer of the signed 64-bit range in every
    record, the column is an integer column with exactly the integers of
    the records. *)
Theorem derive_metrics_frame (recs : list record) (df : DataFrame) :
  derive_metrics recs = Ok df ->
  (forall c : string,
     c ∉ ["date"; "DER"; "asset_turnover"]%string ->
     column df c = column (DataFrame_of_records recs) c)
  /\ (forall c : string,
        c ∈ ["revenue"; "total_liabilities"; "total_equity";
             "total_assets"]%string ->
        exists s : Series,
          column df c = Some s
          /\ Forall2 (held_as c) recs (boxed s)
          /\ forall zs : list Z,
               Forall2 (fun r z => record_get c r = Some (JInt z)) recs zs ->
               Forall (fun z => Infer.INT64_MIN <= z <= Infer.INT64_MAX)%Z zs ->
               s = Int64 zs)
  /\ (forall c : string,
        c ∈ labels df
        <-> c ∈ labels (DataFrame_of_records recs)
            \/ c = "DER"%string \/ c = "asset_turnover"%string).
Proof.
  intros Hd.
  assert (forall c : string,
            c ∉ ["date"; "DER"; "asset_turnover"]%string ->
            column df c = column (DataFrame_of_records recs) c) as Hframe.
  { intros c Hc. rewrite !not_elem_of_cons in Hc.
    destruct Hc as (Hdate & Hder & Hat & _).
    unfold derive_metrics in Hd.
    apply bind_Ok in Hd as (dated & Hn & Ha).
    apply add_ratios_Ok in Ha
      as (tl & te & rev & ta & der & at_ & _ & _ & _ & _ & _ & _ & ->).
    rewrite !column_setitem_ne by congruence.
    now apply normalize_dates_column. }
  split; [exact Hframe|]. split.
  - intros c Hc.
    assert (c ∈ required_fields /\ c ∉ ["date"; "DER"; "asset_turnover"]%string)
      as [Hreq Hnot].
    { rewrite elem_of_required_fields, !not_elem_of_cons.
      rewrite !elem_of_cons, elem_of_nil in Hc.
      destruct Hc as [-> | [-> | [-> | [-> | []]]]];
        (split; [tauto | repeat split; (discriminate || apply not_elem_of_nil)]). }
    exists (Infer.maybe_convert_objects (map (cell c) recs)).
    split; [|split].
    + rewrite (Hframe c Hnot).
      pose proof (derive_metrics_Ok_columns recs df c Hd Hreq) as Hsome.
      rewrite column_of_records in *.
      destruct (bool_decide _); [reflexivity | congruence].
    + pose proof (InferFacts.boxed_maybe_convert_objects_text
                    (map (cell c) recs)) as Hb.
      apply Forall2_fmap_l in Hb.
      eapply Forall2_impl; [exact Hb|]. cbn.
      intros r b Hrb. now apply held_as_cell.
    + intros zs Hzs Hrange.
      assert (map (cell c) recs = map PyInt zs) as ->.
      { clear -Hzs. induction Hzs as [|r z recs zs Hr _ IH]; [reflexivity|].
        cbn. unfold cell at 1. rewrite Hr. cbn. now f_equal. }
      apply InferFacts.maybe_convert_objects_int64; [|exact Hrange].
      intros ->. apply Forall2_nil_inv_r in Hzs as ->.
      now apply (derive_metrics_Ok_columns [] df c Hd Hreq).
  - intros c. unfold derive_metrics in Hd.
    apply bind_Ok in Hd as (dated & Hn & Ha).
    apply add_ratios_Ok in Ha
      as (tl & te & rev & ta & der & at_ & _ & _ & _ & _ & _ & _ & ->).
    rewrite !elem_of_labels_setitem, (normalize_dates_labels _ _ c Hn).
    tauto.
Qed.
End MetricClaims.

(** ** Metric derivation on concrete records *)

(** C2, as stated, fails: a record with total_liabilities = 100, revenue =
    100 and total_equity = total_assets = 0 is derived without error, and
    its DER and asset_turnover are plus infinity, which is not NaN. *)
Lemma zero_denominator_gives_infinity :
  @derive_metrics Example.runtime [Example.quarter "2025-06-30" 100 100 0 0]
  = Ok [("date"%string, Object [Example.month_year "06-2025"]);
        ("revenue"%string, Int64 [100%Z]);
        ("total_liabilities"%string, Int64 [100%Z]);
        ("total_equity"%string, Int64 [0%Z]);
        ("total_assets"%string, Int64 [0%Z]);
        ("DER"%string, Float64 [Float64.inf false]);
        ("asset_turnover"%string, Float64 [Float64.inf false])]
  /\ Float64.is_nan (Float64.inf false) = false.
Proof. split; vm_compute; reflexivity. Qed.

(** With revenue = 0 and total_assets = 0 the asset turnover is NaN, and
    100 / 50 gives 2.0. *)
Lemma ratios_on_numeric_columns_witness :
  @derive_metrics Example.runtime [Example.quarter "2025-06-30" 0 100 50 0]
  = Ok [("date"%string, Object [Example.month_year "06-2025"]);
        ("revenue"%string, Int64 [0%Z]);
        ("total_liabilities"%string, Int64 [100%Z]);
        ("total_equity"%string, Int64 [50%Z]);
        ("total_assets"%string, Int64 [0%Z]);
        ("DER"%string, Float64 [Float64.of_int 2]);
        ("asset_turnover"%string, Float64 [Float64.nan])].
Proof.
  exact (proj1 (@ratios_on_numeric_columns Example.runtime
           [Example.quarter "2025-06-30" 0 100 50 0]
           [("date"%string, Object [Example.month_year "06-2025"]);
            ("revenue"%string, Int64 [0%Z]);
            ("total_liabilities"%string, Int64 [100%Z]);
            ("total_equity"%string, Int64 [50%Z]);
            ("total_assets"%string, Int64 [0%Z])]
           (Int64 [100%Z]) (Int64 [50%Z]) (Int64 [0%Z]) (Int64 [0%Z])
           [Float64.of_int 100] [Float64.of_int 50]
           [Float64.of_int 0] [Float64.of_int 0]
           eq_refl eq_refl eq_refl eq_refl eq_refl
           eq_refl eq_refl eq_refl eq_refl)).
Defined.

(** C6, as stated, fails: the second of two records has no total_assets,
    and derivation returns the whole series, the missing cell and its
    asset_turnover being NaN. *)
Lemma record_without_total_assets_is_kept :
  (exists r, r ∈ Example.partial_quarters /\ record_get "total_assets" r = None)
  /\ @derive_metrics Example.runtime Example.partial_quarters
     = Ok [("date"%string,
            Object [Example.month_year "06-2025"; Example.month_year "03-2025"]);
           ("revenue"%string, Int64 [120%Z; 110%Z]);
           ("total_liabilities"%string, Int64 [100%Z; 90%Z]);
           ("total_equity"%string, Int64 [50%Z; 60%Z]);
           ("total_assets"%string, Float64 [Float64.of_int 150; Float64.nan]);
           ("DER"%string,
            Float64 [Float64.of_int 2;
                     Float64.div (Float64.of_int 90) (Float64.of_int 60)]);
           ("asset_turnover"%string,
            Float64 [Float64.div (Float64.of_int 120) (Float64.of_int 150);
                     Float64.nan])].
Proof.
  split.
  - eexists. split; [right; left | reflexivity].
  - vm_compute. reflexivity.
Qed.

(** A list whose only record has neither liabilities nor equity. *)
Lemma derive_metrics_missing_field_witness :
  (exists e, @derive_metrics Example.runtime
               [[("date"%string, JStr (py "2025-03-31"));
                 ("revenue"%string, JInt 110)]] = Raise e)
  /\ ("total_liabilities"%string ∈ required_fields
      /\ forall r, r ∈ [[("date"%string, JStr (py "2025-03-31"));
                         ("revenue"%string, JInt 110)]] ->
                   record_get "total_liabilities" r = None).
Proof.
  pose proof (@derive_metrics_missing_field Example.runtime
                [[("date"%string, JStr (py "2025-03-31"));
                  ("revenue"%string, JInt 110)]]) as [Ha Hb].
  split.
  - apply (Ha "total_equity"%string).
    + apply elem_of_required_fields. tauto.
    + intros r Hr. apply list_elem_of_singleton in Hr as ->. reflexivity.
  - apply Hb. reflexivity.
Defined.

(** C8, as stated, fails: three quarters fetched in the order March 2025,
    September 2024, June 2025 are derived in that order, and the series
    differs from the one derived from the same quarters in date order. *)
Lemma derived_series_is_not_sorted_by_date :
  Example.shuffled_quarters ≡ₚ Example.quarters_by_date
  /\ (df ← @derive_metrics Example.runtime Example.shuffled_quarters;
      date ← getitem df "date"; revenue ← getitem df "revenue";
      Ok (date, revenue))
     = Ok (Object [Example.month_year "03-2025"; Example.month_year "09-2024";
                   Example.month_year "06-2025"],
           Int64 [110%Z; 100%Z; 120%Z])
  /\ (df ← @derive_metrics Example.runtime Example.quarters_by_date;
      date ← getitem df "date"; revenue ← getitem df "revenue";
      Ok (date, revenue))
     = Ok (Object [Example.month_year "09-2024"; Example.month_year "03-2025";
                   Example.month_year "06-2025"],
           Int64 [100%Z; 110%Z; 120%Z])
  /\ @derive_metrics Example.runtime Example.shuffled_quarters
     <> @derive_metrics Example.runtime Example.quarters_by_date.
Proof.
  split; [apply perm_swap|].
  split; [vm_compute; reflexivity|].
  split; [vm_compute; reflexivity|].
  vm_compute. discriminate.
Qed.

(** The rows for the three shuffled quarters. *)
Lemma derive_metrics_keeps_source_order_witness :
  exists (raw : Series) (ts : list (option Timestamp)),
    column (DataFrame_of_records Example.shuffled_quarters) "date" = Some raw
    /\ Forall2
         (fun r t =>
            exists o : pyobj,
              (o = cell "date" r \/ o = PyFloat (Infer.as_float (cell "date" r)))
              /\ of_outcome (@to_datetime_element Example.runtime raw o) = Ok t)
         Example.shuffled_quarters ts
    /\ column
         [("date"%string,
           Object [Example.month_year "03-2025"; Example.month_year "09-2024";
                   Example.month_year "06-2025"]);
          ("revenue"%string, Int64 [110%Z; 100%Z; 120%Z]);
          ("total_liabilities"%string, Int64 [90%Z; 70%Z; 100%Z]);
          ("total_equity"%string, Int64 [60%Z; 70%Z; 50%Z]);
          ("total_assets"%string, Int64 [150%Z; 140%Z; 150%Z]);
          ("DER"%string,
           Float64 [Float64.div (Float64.of_int 90) (Float64.of_int 60);
                    Float64.of_int 1; Float64.of_int 2]);
          ("asset_turnover"%string,
           Float64 [Float64.div (Float64.of_int 110) (Float64.of_int 150);
                    Float64.div (Float64.of_int 100) (Float64.of_int 140);
                    Float64.div (Float64.of_int 120) (Float64.of_int 150)])]
         "date"
       = Some (Object (map (strftime_cell (py "%m-%Y")) ts)).
Proof.
  apply (@derive_metrics_keeps_source_order Example.runtime
           Example.shuffled_quarters).
  vm_compute. reflexivity.
Defined.

(** C10, as stated, fails: a revenue of 2^53 + 1 in a series where
    another quarter reports null is held by the derived frame as the float
    2^53: the value has changed. *)
Lemma large_revenue_beside_null_is_rounded :
  exists (df : DataFrame) (x : Float64.t),
    @derive_metrics Example.runtime Example.large_revenue_quarters = Ok df
    /\ cell "revenue" <$> Example.large_revenue_quarters !! 0%nat
       = Some (PyInt 9007199254740993)
    /\ (s ← column df "revenue"; boxed s !! 0%nat) = Some (PyFloat x)
    /\ Float64.to_Z x = Some 9007199254740992%Z.
Proof.
  eexists _, _. split; [vm_compute; reflexivity|].
  split; [reflexivity|]. split; vm_compute; reflexivity.
Qed.

(** The revenue column derived from four quarters with integer revenues
    holds these integers, in the order of the records. *)
Lemma derive_metrics_frame_witness :
  column Example.derived_quarters "revenue"
  = Some (Int64 [120; 110; 130; 100]%Z).
Proof.
  destruct (proj1 (proj2 (@derive_metrics_frame Example.runtime
              Example.quarters Example.derived_quarters
              ltac:(vm_compute; reflexivity)))
              "revenue"%string ltac:(left))
    as (s & Hs & _ & Hint).
  rewrite Hs. f_equal. apply Hint.
  - repeat constructor.
  - repeat constructor; vm_compute; discriminate.
Defined.

(** ** The formatter *)

Module PromptFacts.
Import PromptTemplate.

Lemma brace_free_cons c s :
  brace_free (c :: s) = true
  <-> (c =? 123) = false /\ (c =? 125) = false /\ brace_free s = true.
Proof.
  unfold brace_free. cbn [forallb].
  rewrite andb_true_iff, negb_true_iff, orb_false_iff. tauto.
Qed.

(** Literal text is read up to the next brace. *)
Lemma parse_scan_text s : forall text rest,
  brace_free s = true ->
  parse_scan (InText text) (s ++ rest) = parse_scan (InText (text ++ s)) rest.
Proof.
  induction s as [|c s IH]; intros text rest Hs.
  - now rewrite app_nil_r.
  - apply brace_free_cons in Hs as (Ho & Hc & Hs).
    cbn [app parse_scan]. rewrite Ho, Hc, (IH _ _ Hs).
    now rewrite <- app_assoc.
Qed.

Lemma parse_scan_text_end s text :
  brace_free s = true -> parse_scan (InText text) s = Ok [Literal (text ++ s)].
Proof.
  intros Hs. rewrite <- (app_nil_r s) at 1.
  now rewrite (parse_scan_text s text [] Hs).
Qed.

Lemma not_in_specials c :
  Text.in_chars (py "!:.[]") c = false ->
  (c =? 33) = false /\ (c =? 58) = false /\ (c =? 46) = false
  /\ (c =? 91) = false /\ (c =? 93) = false.
Proof.
  unfold Text.in_chars. cbn [py list_ascii_of_string map existsb].
  change (N_of_ascii "!") with 33. change (N_of_ascii ":") with 58.
  change (N_of_ascii ".") with 46. change (N_of_ascii "[") with 91.
  change (N_of_ascii "]") with 93.
  rewrite !orb_false_iff. tauto.
Qed.

(** A name without [!], [:], [.], brackets and braces is read up to the
    closing brace and makes a field without conversion and
    specification. *)
Lemma parse_scan_name name tail : forall acc,
  existsb (Text.in_chars (py "!:.[]")) name = false ->
  brace_free name = true ->
  parse_scan (InName acc false) (name ++ 125 :: tail)
  = (rest ← parse_scan (InText []) tail;
     Ok (Field (acc ++ name) None [] :: rest)).
Proof.
  induction name as [|c name IH]; intros acc Hs Hb.
  - rewrite app_nil_r. reflexivity.
  - cbn [existsb] in Hs. apply orb_false_iff in Hs as [Hc Hs].
    apply not_in_specials in Hc as (H33 & H58 & _ & H91 & _).
    apply brace_free_cons in Hb as (H123 & H125 & Hb).
    cbn [app parse_scan]. rewrite H123, H91, H125, H58, H33, (IH _ Hs Hb).
    now rewrite <- app_assoc.
Qed.

Lemma first_part_plain name :
  existsb (Text.in_chars (py "!:.[]")) name = false -> first_part name = name.
Proof.
  induction name as [|c name IH]; [reflexivity|].
  cbn [existsb]. intros [Hc Hs]%orb_false_iff.
  apply not_in_specials in Hc as (_ & _ & H46 & H91 & _).
  cbn [first_part]. rewrite H46, H91. cbn. now rewrite IH.
Qed.

(** A template that starts with literal text and a plain field. *)
Lemma parse_leading_field head name tail :
  brace_free head = true ->
  existsb (Text.in_chars (py "!:.[]")) name = false ->
  brace_free name = true ->
  parse (head ++ [123] ++ name ++ [125] ++ tail)
  = (rest ← parse tail; Ok (Literal head :: Field name None [] :: rest)).
Proof.
  intros Hh Hs Hb. unfold parse.
  rewrite (parse_scan_text head [] _ Hh). cbn [app].
  assert (parse_scan (InText head) (123 :: name ++ 125 :: tail)
          = (rest ← parse_scan (InName [] false) (name ++ 125 :: tail);
             Ok (Literal head :: rest))) as ->.
  { destruct name as [|c name]; [reflexivity|].
    apply brace_free_cons in Hb as (H123 & _ & _).
    cbn [app parse_scan]. rewrite N.eqb_refl.
    change (N.eqb c 123) with (c =? 123). now rewrite H123. }
  rewrite (parse_scan_name name tail [] Hs Hb). cbn [app].
  now destruct (parse_scan (InText []) tail).
Qed.

Section Formatting.
Context `{Runtime}.

Lemma from_template_data_field head tail :
  brace_free head = true -> brace_free tail = true ->
  from_template (head ++ py "{data}" ++ tail)
  = Ok [Literal head; Field (py "data") None []; Literal tail].
Proof.
  intros Hh Ht. unfold from_template.
  change (py "{data}" ++ tail) with ([123] ++ py "data" ++ [125] ++ tail).
  rewrite (parse_leading_field head (py "data") tail Hh)
    by reflexivity.
  unfold parse. rewrite (parse_scan_text_end tail [] Ht). reflexivity.
Qed.

(** A template with one field [{data}] and no other brace is rendered by
    putting the value in the place of the field. *)
Lemma format_data_field head tail v :
  brace_free head = true -> brace_free tail = true ->
  (template ← from_template (head ++ py "{data}" ++ tail);
   format template [(py "data", v)])
  = Ok (head ++ v ++ tail).
Proof.
  intros Hh Ht. rewrite (from_template_data_field head tail Hh Ht).
  cbn. now rewrite app_nil_r.
Qed.

Lemma format_single_data_field t v :
  single_data_field t = true ->
  (template ← from_template t; format template [(py "data", v)])
  = Ok (before_field t ++ v ++ after_field t).
Proof.
  unfold single_data_field.
  intros [[Ht%bool_decide_eq_true Hh]%andb_true_iff Ha]%andb_true_iff.
  rewrite Ht at 1. now apply format_data_field.
Qed.

End Formatting.
End PromptFacts.

(** ** Running computations *)

Lemma run_bind {A B} (m : M A) (f : A -> M B) w :
  run (m ≫= f) w
  = match run m w with
    | (Ok a, w') => run (f a) w'
    | (Raise e, w') => (Raise e, w')
    end.
Proof. reflexivity. Qed.

Lemma run_lift {A} (r : result A) w : run (lift r) w = (r, w).
Proof. reflexivity. Qed.

Lemma run_draw e w : run (draw e) w = (Ok tt, with_element w e).
Proof. reflexivity. Qed.

Lemma run_llm_invoke p w :
  run (llm_invoke p) w
  = (of_outcome (llm_answer w (length (llm_prompts w)) p), with_prompt w p).
Proof. reflexivity. Qed.

Section PipelineFacts.
Context `{Runtime}.

Lemma run_run_llm t d w :
  run (run_llm t d) w
  = match compose_prompt t d with
    | Ok p => (of_outcome (llm_answer w (length (llm_prompts w)) p),
               with_prompt w p)
    | Raise e => (Raise e, w)
    end.
Proof.
  unfold run_llm. rewrite run_bind, run_lift.
  destruct (compose_prompt t d); reflexivity.
Qed.

Lemma compose_prompt_program_templates d :
  compose_prompt summary_prompt d
  = Ok (PromptTemplate.before_field summary_prompt ++ to_string d
        ++ PromptTemplate.after_field summary_prompt)
  /\ compose_prompt trend_prompt d
     = Ok (PromptTemplate.before_field trend_prompt ++ to_string d
           ++ PromptTemplate.after_field trend_prompt)
  /\ compose_prompt risk_prompt d
     = Ok (PromptTemplate.before_field risk_prompt ++ to_string d
           ++ PromptTemplate.after_field risk_prompt).
Proof.
  unfold compose_prompt.
  repeat split; apply PromptFacts.format_single_data_field;
    vm_compute; reflexivity.
Qed.

Lemma run_exec_figure code w :
  run (exec_figure code) w
  = match python_exec code (Exec.exec_globals Exec.sandbox_globals)
            Exec.sandbox_locals w with
    | (Returns exec_locals, w') =>
        (match exec_locals !! "fig"%string with
         | Some fig => Ok fig
         | None => Raise (KeyError "fig")
         end, w')
    | (Throws cls, w') => (Raise (LibraryError cls), w')
    end.
Proof.
  unfold exec_figure, exec. rewrite run_bind. cbn [run].
  destruct (python_exec _ _ _ w) as [[exec_locals|cls] w']; reflexivity.
Qed.
End PipelineFacts.

(** ** The pipeline *)

(** C1, as stated, fails: the executed program can evaluate [open] and
    [__import__], which the caller put in neither dict and which give it
    the file system and unrestricted imports. *)
Lemma sandbox_exposes_open_and_import :
  Exec.resolve Exec.sandbox_globals Exec.sandbox_locals "open"
    = Some (Builtin "open")
  /\ Exec.injected Exec.sandbox_globals Exec.sandbox_locals "open" = false
  /\ Exec.capability_of "open" = Some Exec.FileSystem
  /\ Exec.resolve Exec.sandbox_globals Exec.sandbox_locals "__import__"
     = Some (Builtin "__import__")
  /\ Exec.injected Exec.sandbox_globals Exec.sandbox_locals "__import__" = false
  /\ Exec.capability_of "__import__" = Some Exec.UnrestrictedImport.
Proof. repeat split; vm_compute; reflexivity. Qed.

(** C1, amended: [revenue_trend] injects no name at all: both dicts it
    passes are empty.  The names the executed program can evaluate are
    [__builtins__], which [exec] adds to the globals, and the builtins of
    the interpreter, among them [open], [__import__] and [exec]; neither
    the data value nor a plotting primitive is among them. *)
Theorem sandbox_names_are_the_builtins :
  Exec.exec_globals Exec.sandbox_globals
    = {[ "__builtins__"%string := BuiltinsModule ]}
  /\ (forall name : string,
        Exec.injected Exec.sandbox_globals Exec.sandbox_locals name = false)
  /\ (forall name : string,
        Exec.resolve Exec.sandbox_globals Exec.sandbox_locals name
        = if bool_decide (name = "__builtins__"%string)
          then Some BuiltinsModule
          else Exec.builtins !! name)
  /\ Exec.builtins !! "open"%string = Some (Builtin "open")
  /\ Exec.builtins !! "__import__"%string = Some (Builtin "__import__")
  /\ Exec.builtins !! "exec"%string = Some (Builtin "exec")
  /\ Forall (fun name =>
               Exec.resolve Exec.sandbox_globals Exec.sandbox_locals name = None)
       ["financials"; "pd"; "go"; "make_subplots"; "fig"]%string.
Proof.
  assert (Exec.exec_globals Exec.sandbox_globals
          = {[ "__builtins__"%string := BuiltinsModule ]}) as Hg
    by reflexivity.
  split; [exact Hg|]. split; [|split].
  - intros name. unfold Exec.injected, Exec.sandbox_globals, Exec.sandbox_locals.
    rewrite lookup_empty. apply orb_false_iff.
    split; apply bool_decide_eq_false; intros [? [=]].
  - intros name. unfold Exec.resolve, Exec.reachable_builtins.
    rewrite Hg. unfold Exec.sandbox_locals. rewrite lookup_empty.
    rewrite lookup_singleton_eq.
    destruct (bool_decide (name = "__builtins__"%string)) eqn:E.
    + apply bool_decide_eq_true in E as ->. now rewrite lookup_singleton_eq.
    + apply bool_decide_eq_false in E. now rewrite lookup_singleton_ne.
  - repeat split; try (vm_compute; reflexivity).
    repeat constructor; vm_compute; reflexivity.
Qed.

Section PipelineClaims.
Context `{Runtime}.

(** C4: when the sanitized program runs to its end and leaves no binding
    of [fig], the execution step raises ([KeyError] on
    [exec_locals["fig"]], the code's execution failure), no figure is
    returned and [revenue_trend] draws no chart: it stops in the world the
    program left, to which [revenue_trend] itself had added the prompt and
    the subheader only. *)
Theorem program_without_fig_raises
    (symbol : str) (financials data_sample : DataFrame) (w : World)
    (raw_code : str) (exec_locals : namespace) (w' : World) :
  getitems financials data_sample_columns = Ok data_sample ->
  let prompt :=
    visualization_prompt_head ++ frame_repr data_sample
      ++ visualization_prompt_tail in
  let heading :=
    with_element (with_prompt w prompt) (Subheader visualization_title) in
  llm_answer w (length (llm_prompts w)) prompt = Returns raw_code ->
  python_exec (clean_python_code raw_code)
    (Exec.exec_globals Exec.sandbox_globals) Exec.sandbox_locals heading
    = (Returns exec_locals, w') ->
  exec_locals !! "fig"%string = None ->
  run (exec_figure (clean_python_code raw_code)) heading
    = (Raise (KeyError "fig"), w')
  /\ run (revenue_trend symbol financials) w = (Raise (KeyError "fig"), w').
Proof.
  intros Hsample prompt heading Hllm Hexec Hfig.
  assert (run (exec_figure (clean_python_code raw_code)) heading
          = (Raise (KeyError "fig"), w')) as Hraise.
  { rewrite run_exec_figure, Hexec, Hfig. reflexivity. }
  split; [exact Hraise|].
  unfold revenue_trend. rewrite run_bind, run_lift, Hsample.
  rewrite run_bind, run_llm_invoke. fold prompt. rewrite Hllm.
  cbn [of_outcome]. rewrite run_bind, run_draw. fold heading.
  rewrite run_bind, Hraise. reflexivity.
Qed.

Lemma run_narrative_failure t title d w p cls :
  compose_prompt t d = Ok p ->
  llm_answer w (length (llm_prompts w)) p = Throws cls ->
  run (x ← run_llm t d; _ ← draw (Subheader title); draw (Markdown x)) w
  = (Raise (LibraryError cls), with_prompt w p).
Proof.
  intros Hp Hl. rewrite run_bind, run_run_llm, Hp, Hl. reflexivity.
Qed.

Lemma run_narrative_success t title d w p x :
  compose_prompt t d = Ok p ->
  llm_answer w (length (llm_prompts w)) p = Returns x ->
  run (x ← run_llm t d; _ ← draw (Subheader title); draw (Markdown x)) w
  = (Ok tt, with_element (with_element (with_prompt w p) (Subheader title))
              (Markdown x)).
Proof.
  intros Hp Hl. rewrite run_bind, run_run_llm, Hp, Hl. reflexivity.
Qed.

(** C5, amended: failures are not panel-scoped.  The panels are produced
    in the order summary, visualization, trend, risk, and a failure in
    one of them is raised out of [insight] in the world it was raised
    in: what was drawn before stays, nothing of a later panel is sent or
    drawn, and the failing panel draws nothing.  So a risk-analysis
    failure leaves the three other panels complete, and a trend-analysis
    failure prevents the risk panel. *)
Theorem insight_failure_aborts_later_panels (symbol : str) (w : World) :
  (forall e w1,
     run (financial_summary symbol) w = (Raise e, w1) ->
     run (insight symbol) w = (Raise e, w1))
  /\ (forall financials w1 e w2,
        run (financial_summary symbol) w = (Ok financials, w1) ->
        run (revenue_trend symbol financials)
          (with_element w1 (Markdown (py "---"))) = (Raise e, w2) ->
        run (insight symbol) w = (Raise e, w2))
  /\ (forall financials w1 w2 prompt cls,
        run (financial_summary symbol) w = (Ok financials, w1) ->
        run (revenue_trend symbol financials)
          (with_element w1 (Markdown (py "---"))) = (Ok tt, w2) ->
        compose_prompt trend_prompt financials = Ok prompt ->
        llm_answer w2 (length (llm_prompts w2)) prompt = Throws cls ->
        run (insight symbol) w
        = (Raise (LibraryError cls),
           with_prompt (with_element w2 (Markdown (py "---"))) prompt))
  /\ (forall financials w1 w2 w3 prompt cls,
        run (financial_summary symbol) w = (Ok financials, w1) ->
        run (revenue_trend symbol financials)
          (with_element w1 (Markdown (py "---"))) = (Ok tt, w2) ->
        run (trend_analysis financials)
          (with_element w2 (Markdown (py "---"))) = (Ok tt, w3) ->
        compose_prompt risk_prompt financials = Ok prompt ->
        llm_answer w3 (length (llm_prompts w3)) prompt = Throws cls ->
        run (insight symbol) w
        = (Raise (LibraryError cls), with_prompt w3 prompt)).
Proof.
  unfold insight. repeat split.
  - intros e w1 Hs. now rewrite run_bind, Hs.
  - intros f w1 e w2 Hs Hv.
    rewrite run_bind, Hs, run_bind, run_draw, run_bind, Hv. reflexivity.
  - intros f w1 w2 p cls Hs Hv Hp Hl.
    rewrite run_bind, Hs, run_bind, run_draw, run_bind, Hv.
    rewrite run_bind, run_draw, run_bind.
    unfold trend_analysis.
    rewrite (run_narrative_failure _ _ _ _ p cls Hp) by exact Hl.
    reflexivity.
  - intros f w1 w2 w3 p cls Hs Hv Ht Hp Hl.
    rewrite run_bind, Hs, run_bind, run_draw, run_bind, Hv.
    rewrite run_bind, run_draw, run_bind, Ht, run_bind.
    unfold risk_analysis.
    rewrite (run_narrative_failure _ _ _ _ p cls Hp) by exact Hl.
    reflexivity.
Qed.
End PipelineClaims.

(** ** The pipeline in concrete sessions *)

(** C5, as stated, fails: when the trend-analysis call (the third
    invocation of the model) fails, [main] raises and its sibling, the risk
    panel, is never produced. *)
Lemma trend_failure_prevents_risk_panel :
  fst (run (@main Example.runtime Example.symbol true) (Example.session 2))
    = Raise (LibraryError "APIStatusError")
  /\ page (snd (run (@main Example.runtime Example.symbol true)
                  (Example.session 2)))
     = [Subheader summary_title;
        Markdown (py "Ringkasan: pendapatan naik.");
        Markdown (py "---");
        Subheader visualization_title;
        PlotlyChart (Figure (py "import plotly.graph_objects as go
fig = go.Figure()"));
        Markdown (py "---")]
  /\ ~ In (Subheader risk_title)
         (page (snd (run (@main Example.runtime Example.symbol true)
                       (Example.session 2))))
  /\ length (llm_prompts (snd (run (@main Example.runtime Example.symbol true)
                                 (Example.session 2))))
     = 3%nat.
Proof.
  split; [vm_compute; reflexivity|].
  split; [vm_compute; reflexivity|].
  split; [|vm_compute; reflexivity].
  intros Hin. vm_compute in Hin.
  repeat (destruct Hin as [Hin | Hin]; [discriminate|]). exact Hin.
Qed.

(** When the risk-analysis call (the fourth invocation) fails, the three
    other panels are on the page. *)
Lemma insight_failure_aborts_later_panels_witness :
  fst (run (@insight Example.runtime Example.symbol) (Example.session 3))
    = Raise (LibraryError "APIStatusError")
  /\ page (snd (run (@insight Example.runtime Example.symbol)
                  (Example.session 3)))
     = [Subheader summary_title;
        Markdown (py "Ringkasan: pendapatan naik.");
        Markdown (py "---");
        Subheader visualization_title;
        PlotlyChart (Figure (py "import plotly.graph_objects as go
fig = go.Figure()"));
        Markdown (py "---");
        Subheader trend_title;
        Markdown (py "Tren: DER menurun.")].
Proof.
  pose (f := Example.derived_quarters).
  pose (w1 := snd (run (@financial_summary Example.runtime Example.symbol)
                     (Example.session 3))).
  pose (w2 := snd (run (@revenue_trend Example.runtime Example.symbol f)
                     (with_element w1 (Markdown (py "---"))))).
  pose (w3 := snd (run (@trend_analysis Example.runtime f)
                     (with_element w2 (Markdown (py "---"))))).
  pose (p := match @compose_prompt Example.runtime risk_prompt f with
             | Ok p => p
             | Raise _ => []
             end).
  rewrite (proj2 (proj2 (proj2
    (@insight_failure_aborts_later_panels Example.runtime Example.symbol
       (Example.session 3))))
    f w1 w2 w3 p "APIStatusError"%string);
    [ split; vm_compute; reflexivity | vm_compute; reflexivity .. ].
Defined.

(** A program that binds [chart] only. *)
Lemma program_without_fig_raises_witness :
  fst (run (@revenue_trend Example.runtime Example.symbol
              Example.derived_quarters)
         Example.chartless_session)
    = Raise (KeyError "fig")
  /\ page (snd (run (@revenue_trend Example.runtime Example.symbol
                       Example.derived_quarters)
                  Example.chartless_session))
     = [Subheader visualization_title].
Proof.
  set (f := Example.derived_quarters).
  pose (sample := match getitems f data_sample_columns with
                  | Ok d => d
                  | Raise _ => []
                  end).
  pose (heading :=
          with_element
            (with_prompt Example.chartless_session
               (visualization_prompt_head
                  ++ @frame_repr Example.runtime sample
                  ++ visualization_prompt_tail))
            (Subheader visualization_title)).
  rewrite (proj2 (@program_without_fig_raises Example.runtime
             Example.symbol f sample
             Example.chartless_session
             Example.chartless_code
             {[ "chart"%string :=
                  Figure (py "import plotly.graph_objects as go
chart = go.Figure()") ]} heading
             ltac:(vm_compute; reflexivity) ltac:(vm_compute; reflexivity)
             ltac:(vm_compute; reflexivity) ltac:(reflexivity))).
  split; vm_compute; reflexivity.
Defined.

(* ===================================================================== *)
(** * Further properties *)
(* ===================================================================== *)

(** ** More on the sanitizer *)

Lemma lstrip_with_sublist p s : lstrip_with p s `sublist_of` s.
Proof.
  destruct (lstrip_with_suffix p s) as [u Hu]. rewrite Hu at 2.
  now apply sublist_inserts_l.
Qed.

Lemma rstrip_with_sublist p s : rstrip_with p s `sublist_of` s.
Proof.
  destruct (rstrip_with_prefix p s) as [u Hu]. rewrite Hu at 2.
  now apply sublist_inserts_r.
Qed.

Lemma strip_with_sublist p s : strip_with p s `sublist_of` s.
Proof.
  unfold strip_with. etransitivity;
    [apply rstrip_with_sublist | apply lstrip_with_sublist].
Qed.

Lemma replace_scan_delete_sublist old s : forall k,
  replace_scan old [] k s `sublist_of` s.
Proof.
  induction s as [|c s IH]; intros k; cbn [replace_scan]; [constructor|].
  destruct k as [|k].
  - destruct (starts_with old (c :: s)); cbn [app].
    + apply sublist_cons. apply IH.
    + apply sublist_skip. apply IH.
  - apply sublist_cons. apply IH.
Qed.

(** X1: [clean_python_code] only deletes characters.  Its result is a
    subsequence of the raw text (the characters that remain keep their
    order and nothing is inserted), so it is never longer than the raw
    text. *)
Theorem clean_python_code_only_deletes (raw_code : str) :
  clean_python_code raw_code `sublist_of` raw_code
  /\ (length (clean_python_code raw_code) <= length raw_code)%nat.
Proof.
  assert (clean_python_code raw_code `sublist_of` raw_code) as Hs.
  { unfold clean_python_code, strip, strip_chars.
    etransitivity; [apply strip_with_sublist|].
    etransitivity; [apply (replace_scan_delete_sublist python_word _ 0%nat)|].
    etransitivity; apply strip_with_sublist. }
  split; [exact Hs | now apply sublist_length].
Qed.

Lemma clean_left_head_iff p (s : str) :
  clean_left p s <-> forall c, head s = Some c -> p c = false.
Proof.
  destruct s as [|x s]; cbn.
  - split; [intros _ c [=] | trivial].
  - split; [intros Hx c [= <-]; exact Hx | intros Hc; now apply Hc].
Qed.

(** X2: the result of [clean_python_code] neither starts nor ends with a
    whitespace character, whatever the raw text is. *)
Theorem clean_python_code_is_trimmed (raw_code : str) :
  (forall c, head (clean_python_code raw_code) = Some c -> isspace c = false)
  /\ (forall c, last (clean_python_code raw_code) = Some c -> isspace c = false).
Proof.
  split.
  - apply clean_left_head_iff. unfold clean_python_code, strip.
    apply strip_with_clean_left.
  - rewrite <- head_rev. apply clean_left_head_iff.
    unfold clean_python_code, strip. apply strip_with_clean_right.
Qed.

(** Plain text: no backtick at either end, no occurrence of the word. *)
Lemma clean_python_code_trimmed_plain (y : str) :
  strip y = y ->
  head y <> Some 96 -> last y <> Some 96 ->
  contains python_word y = false ->
  clean_python_code y = y.
Proof.
  intros Hs Hh Hl Hc. unfold clean_python_code. rewrite Hs.
  unfold strip_chars.
  rewrite strip_with_id;
    [ | now apply clean_left_backticks | now apply clean_right_backticks ].
  change (replace python_word [] y) with (replace_scan python_word [] 0 y).
  rewrite replace_scan_absent; [exact Hs|].
  intros Ho. apply contains_spec in Ho. congruence.
Qed.

(** X3: on a raw text that, once trimmed of whitespace, has no backtick
    at either end and does not contain the word [python],
    [clean_python_code] does nothing but trim the whitespace at both
    ends. *)
Theorem clean_python_code_trims_plain_code (raw_code : str) :
  head (strip raw_code) <> Some 96 ->
  last (strip raw_code) <> Some 96 ->
  contains python_word (strip raw_code) = false ->
  clean_python_code raw_code = strip raw_code.
Proof.
  intros Hh Hl Hc.
  assert (strip (strip raw_code) = strip raw_code) as Hs
    by apply strip_with_idempotent.
  rewrite <- (clean_python_code_trimmed_plain (strip raw_code) Hs Hh Hl Hc).
  unfold clean_python_code. now rewrite Hs.
Qed.

Lemma clean_python_code_trims_plain_code_witness :
  clean_python_code (py "
fig = go.Figure()
") = py "fig = go.Figure()".
Proof.
  rewrite clean_python_code_trims_plain_code;
    vm_compute; (discriminate || reflexivity).
Defined.

Lemma lstrip_with_all p s : forallb p s = true -> lstrip_with p s = [].
Proof.
  induction s as [|c s IH]; cbn; [reflexivity|].
  intros [Hc Hs]%andb_true_iff. rewrite Hc. now apply IH.
Qed.

(** X5: a raw text that is empty or made of whitespace only is cleaned to
    the empty program. *)
Theorem clean_python_code_of_blank (raw_code : str) :
  forallb isspace raw_code = true -> clean_python_code raw_code = [].
Proof.
  intros Hb. unfold clean_python_code, strip, strip_with.
  now rewrite (lstrip_with_all _ _ Hb).
Qed.

Lemma clean_python_code_of_blank_witness :
  clean_python_code (py "
   ") = [].
Proof. apply clean_python_code_of_blank. reflexivity. Defined.

Lemma rstrip_with_snoc_drop p s c :
  p c = true -> rstrip_with p (s ++ [c]) = rstrip_with p s.
Proof.
  intros Hc. unfold rstrip_with. rewrite rev_app_distr. cbn. now rewrite Hc.
Qed.

Lemma occurs_python_between_newlines body :
  occurs python_word (10 :: body ++ [10]) -> occurs python_word body.
Proof.
  intros (a & b & Hab).
  remember python_word as w eqn:Hw.
  destruct a as [|x a]; [rewrite Hw in Hab; discriminate|].
  injection Hab as <- Hab.
  destruct b as [|y b _] using rev_ind.
  - rewrite app_nil_r, Hw in Hab.
    change python_word with (py "pytho" ++ [110]) in Hab.
    rewrite app_assoc in Hab. apply app_inj_tail in Hab as [_ [=]].
  - rewrite !app_assoc in Hab. apply app_inj_tail in Hab as [Hab _].
    exists a, b. now rewrite app_assoc.
Qed.

Lemma strip_between_newlines body :
  strip body = body -> strip (10 :: body ++ [10]) = body.
Proof.
  intros Hs.
  assert (clean_left isspace body) as Hl
    by (rewrite <- Hs; apply strip_with_clean_left).
  assert (clean_right isspace body) as Hr
    by (rewrite <- Hs; apply strip_with_clean_right).
  unfold strip, strip_with. cbn [lstrip_with].
  change (isspace 10) with true. cbn iota.
  destruct body as [|c body].
  - reflexivity.
  - cbn [app lstrip_with]. cbn in Hl. rewrite Hl.
    change (c :: body ++ [10]) with ((c :: body) ++ [10]).
    rewrite rstrip_with_snoc_drop by reflexivity.
    now apply rstrip_with_id.
Qed.

Lemma rstrip_closing_fence body :
  rstrip_with (in_chars backticks)
    (rstrip_with isspace (10 :: body ++ 10 :: py "```"))
  = 10 :: body ++ [10].
Proof.
  transitivity
    (rstrip_with (in_chars backticks)
       (rstrip_with isspace ((10 :: body ++ 10 :: py "``") ++ 96 :: []))).
  { do 2 f_equal. cbn. now rewrite <- app_assoc. }
  rewrite (rstrip_with_app_keep isspace _ 96 []) by reflexivity.
  transitivity
    (rstrip_with (in_chars backticks) ((10 :: body) ++ 10 :: py "```")).
  { f_equal. cbn. now rewrite <- app_assoc. }
  rewrite (rstrip_with_app_keep (in_chars backticks) _ 10 (py "```"))
    by reflexivity.
  reflexivity.
Qed.

(** X4: a program fenced as a Markdown [python] code block is unwrapped.
    For a body that has no whitespace at its ends and does not contain the
    word [python], cleaning the opening fence with its language tag, a
    newline, the body, a newline and the closing fence gives back exactly
    the body. *)
Theorem clean_python_code_unfences (body : str) :
  strip body = body ->
  contains python_word body = false ->
  clean_python_code (py "```python" ++ [10] ++ body ++ [10] ++ py "```") = body.
Proof.
  intros Hs Hc.
  change (py "```python" ++ [10] ++ body ++ [10] ++ py "```")
    with (py "```" ++ python_word ++ (10 :: body ++ 10 :: py "```")).
  rewrite clean_python_code_at_python, rstrip_closing_fence.
  change (lstrip_with (in_chars backticks) (lstrip_with isspace (py "```")))
    with (@nil codepoint).
  change (replace python_word [] [] ++ replace python_word [] (10 :: body ++ [10]))
    with (replace_scan python_word [] 0 (10 :: body ++ [10])).
  rewrite replace_scan_absent.
  - now apply strip_between_newlines.
  - intros Ho%occurs_python_between_newlines%contains_spec. congruence.
Qed.

Lemma clean_python_code_unfences_witness :
  clean_python_code
    (py "```python" ++ [10]
       ++ py "import plotly.graph_objects as go
fig = go.Figure()" ++ [10] ++ py "```")
  = py "import plotly.graph_objects as go
fig = go.Figure()".
Proof.
  apply clean_python_code_unfences; vm_compute; reflexivity.
Defined.

(** ** More on metric derivation *)

Section MoreDerivation.
Context `{Runtime}.

(** X6: when no fetched record has a [date] field (in particular when
    the data source returns no record at all), the derivation of the
    metrics fails with [KeyError] on [date]. *)
Theorem derive_metrics_without_dates (recs : list record) :
  (forall r, r ∈ recs -> record_get "date" r = None) ->
  derive_metrics recs = Raise (KeyError "date").
Proof.
  intros Hall. apply column_of_records_None in Hall.
  unfold derive_metrics, normalize_dates, getitem. now rewrite Hall.
Qed.

Lemma mapM_first_failure {A B} (f : A -> result B) good x rest e :
  Forall (fun a => exists b, f a = Ok b) good ->
  f x = Raise e ->
  mapM f (good ++ x :: rest) = Raise e.
Proof.
  intros Hgood Hx. induction Hgood as [|a good [b Hb] _ IH]; cbn.
  - now rewrite Hx.
  - rewrite Hb. cbn. now rewrite IH.
Qed.

(** X7: when the fetched records have a [date] column and one of its
    values cannot be read as a date, all values before it being readable,
    the derivation of the metrics fails with the error that
    [pd.to_datetime] raises on that value. *)
Theorem derive_metrics_unreadable_date
    (recs : list record) (raw : Series) (good : list pyobj) (bad : pyobj)
    (rest : list pyobj) (cls : string) :
  column (DataFrame_of_records recs) "date" = Some raw ->
  boxed raw = good ++ bad :: rest ->
  Forall (fun o => exists t, to_datetime_element raw o = Returns t) good ->
  to_datetime_element raw bad = Throws cls ->
  derive_metrics recs = Raise (LibraryError cls).
Proof.
  intros Hraw Hboxed Hgood Hbad.
  assert (to_datetime raw = Raise (LibraryError cls)) as Hparse.
  { assert (mapM (fun o => of_outcome (to_datetime_element raw o)) (boxed raw)
            = Raise (LibraryError cls)) as Hm.
    { rewrite Hboxed. apply mapM_first_failure.
      - eapply Forall_impl; [exact Hgood|]. intros o [t Ht]. exists t.
        now rewrite Ht.
      - now rewrite Hbad. }
    destruct raw; unfold to_datetime; try (now rewrite Hm).
    cbn in Hboxed. now destruct good. }
  unfold derive_metrics, normalize_dates.
  apply getitem_Ok in Hraw. rewrite Hraw. cbn. now rewrite Hparse.
Qed.

Lemma getitems_present (df : DataFrame) (ls : list string) :
  Forall (fun c => column df c <> None) ls ->
  exists sample,
    getitems df ls = Ok sample
    /\ labels sample = ls
    /\ Forall (fun kv => column df kv.1 = Some kv.2) sample.
Proof.
  induction 1 as [|c ls Hc _ (sample & Hs & Hl & Hcols)]; cbn.
  - exists []. repeat split. constructor.
  - destruct (column df c) as [s|] eqn:E; [|congruence].
    unfold getitem. rewrite E. cbn. rewrite Hs. cbn.
    exists ((c, s) :: sample). repeat split.
    + unfold labels in *. cbn. now f_equal.
    + constructor; [exact E | exact Hcols].
Qed.

(** X8: whenever the derivation of the metrics succeeds, the selection of
    the seven columns shown to the model for the chart
    ([date], [revenue], [total_liabilities], [total_equity],
    [total_assets], [DER], [asset_turnover]) succeeds on the derived frame:
    it has exactly these labels, in this order, each with the column of the
    derived frame.  So [revenue_trend] never fails with a [KeyError] on the
    frame that [financial_summary] returns. *)
Theorem derived_frame_has_the_sample_columns
    (recs : list record) (df : DataFrame) :
  derive_metrics recs = Ok df ->
  exists sample,
    getitems df data_sample_columns = Ok sample
    /\ labels sample = data_sample_columns
    /\ Forall (fun kv => column df kv.1 = Some kv.2) sample.
Proof.
  intros Hd. apply getitems_present.
  unfold derive_metrics in Hd.
  apply bind_Ok in Hd as (dated & Hn & Ha).
  pose proof (add_ratios_Ok_columns dated df) as Hreq.
  specialize (fun k => Hreq k Ha).
  apply normalize_dates_Ok in Hn as (raw & ts & _ & _ & ->).
  apply add_ratios_Ok in Ha
    as (tl & te & rev & ta & der & at_ & _ & _ & _ & _ & _ & _ & ->).
  assert (forall c, c ∈ required_fields -> c <> "date"%string ->
            column
              (setitem
                 (setitem
                    (setitem (DataFrame_of_records recs) "date"
                       (Object (map (strftime_cell (py "%m-%Y")) ts)))
                    "DER" der) "asset_turnover" at_) c <> None) as Hcol.
  { intros c Hc Hne.
    assert (c <> "DER"%string /\ c <> "asset_turnover"%string) as [H1 H2].
    { apply elem_of_required_fields in Hc.
      destruct Hc as [-> | [-> | [-> | [-> | ->]]]]; split; discriminate. }
    do 2 rewrite column_setitem_ne by congruence.
    now apply Hreq. }
  unfold data_sample_columns. repeat constructor.
  - rewrite !column_setitem_ne by discriminate.
    now rewrite column_setitem_eq.
  - apply Hcol; [apply elem_of_required_fields; tauto | discriminate].
  - apply Hcol; [apply elem_of_required_fields; tauto | discriminate].
  - apply Hcol; [apply elem_of_required_fields; tauto | discriminate].
  - apply Hcol; [apply elem_of_required_fields; tauto | discriminate].
  - rewrite column_setitem_ne by discriminate.
    now rewrite column_setitem_eq.
  - now rewrite column_setitem_eq.
Qed.

End MoreDerivation.

Lemma derive_metrics_without_dates_witness :
  @derive_metrics Example.runtime [] = Raise (KeyError "date")
  /\ @derive_metrics Example.runtime
       [[("revenue"%string, JInt 110); ("total_assets"%string, JInt 150)]]
     = Raise (KeyError "date").
Proof.
  split; apply derive_metrics_without_dates.
  - intros r Hr. now apply elem_of_nil in Hr.
  - intros r Hr. apply list_elem_of_singleton in Hr as ->. reflexivity.
Defined.

Lemma derive_metrics_unreadable_date_witness :
  @derive_metrics Example.runtime
    [Example.quarter "2025-06-30" 120 100 50 150;
     Example.quarter "unknown" 110 90 60 150]
  = Raise (LibraryError "ValueError").
Proof.
  apply (@derive_metrics_unreadable_date Example.runtime _
           (Object [PyStr (py "2025-06-30"); PyStr (py "unknown")])
           [PyStr (py "2025-06-30")] (PyStr (py "unknown")) []).
  - reflexivity.
  - reflexivity.
  - repeat constructor. eexists. reflexivity.
  - reflexivity.
Defined.

Lemma derived_frame_has_the_sample_columns_witness :
  exists sample,
    getitems Example.derived_quarters data_sample_columns = Ok sample
    /\ labels sample = data_sample_columns
    /\ Forall (fun kv => column Example.derived_quarters kv.1 = Some kv.2)
         sample.
Proof.
  apply (@derived_frame_has_the_sample_columns Example.runtime
           Example.quarters).
  vm_compute. reflexivity.
Defined.

(** ** The month-year text *)

Module StrftimeFacts.
Import Strftime.

Lemma uint_digits_inj u v : uint_digits u = uint_digits v -> u = v.
Proof.
  revert v. induction u; intros v Huv; destruct v; cbn in Huv;
    try discriminate; try reflexivity;
    injection Huv as Huv; f_equal; now apply IHu.
Qed.

Lemma decimal_inj n m : decimal n = decimal m -> n = m.
Proof.
  intros Hd. apply DecimalN.Unsigned.to_uint_inj. now apply uint_digits_inj.
Qed.

Lemma strftime_month_year_text t :
  strftime (py "%m-%Y") t
  = zero_pad 2 (decimal (Z.to_N (month t)))
      ++ 45 :: decimal (Z.to_N (year t)).
Proof.
  change (strftime (py "%m-%Y") t)
    with (zero_pad 2 (decimal (Z.to_N (month t)))
            ++ 45 :: (decimal (Z.to_N (year t)) ++ [])).
  now rewrite app_nil_r.
Qed.

Lemma zero_pad_month m :
  (1 <= m <= 12)%Z ->
  exists a b : N,
    zero_pad 2 (decimal (Z.to_N m)) = [a; b]
    /\ m = Z.of_N ((a - 48) * 10 + (b - 48)).
Proof.
  intros Hm.
  assert (m = 1 \/ m = 2 \/ m = 3 \/ m = 4 \/ m = 5 \/ m = 6 \/ m = 7
          \/ m = 8 \/ m = 9 \/ m = 10 \/ m = 11 \/ m = 12)%Z
    as Hcases by lia.
  repeat (destruct Hcases as [-> | Hcases];
          [do 2 eexists; split; vm_compute; reflexivity|]).
  subst m. do 2 eexists; split; vm_compute; reflexivity.
Qed.
End StrftimeFacts.

(** X9: the text [%m-%Y] written in the [date] column identifies the
    month and the year and nothing else: two timestamps, with months
    between 1 and 12 and non-negative years, get the same text exactly when
    they are in the same month of the same year; the day is lost. *)
Theorem month_year_text_identifies_month_and_year (t1 t2 : Timestamp) :
  (1 <= month t1 <= 12)%Z -> (1 <= month t2 <= 12)%Z ->
  (0 <= year t1)%Z -> (0 <= year t2)%Z ->
  Strftime.strftime (py "%m-%Y") t1 = Strftime.strftime (py "%m-%Y") t2
  <-> month t1 = month t2 /\ year t1 = year t2.
Proof.
  intros Hm1 Hm2 Hy1 Hy2.
  rewrite !StrftimeFacts.strftime_month_year_text. split.
  - destruct (StrftimeFacts.zero_pad_month _ Hm1) as (a1 & b1 & -> & E1).
    destruct (StrftimeFacts.zero_pad_month _ Hm2) as (a2 & b2 & -> & E2).
    cbn [app]. intros [= -> -> Hd].
    split; [congruence|].
    apply StrftimeFacts.decimal_inj in Hd. lia.
  - now intros [-> ->].
Qed.

Lemma month_year_text_identifies_month_and_year_witness :
  Strftime.strftime (py "%m-%Y") {| year := 2025; month := 6; day := 30 |}
  = Strftime.strftime (py "%m-%Y") {| year := 2025; month := 6; day := 1 |}.
Proof.
  apply month_year_text_identifies_month_and_year; cbn; (lia || auto).
Defined.

(** ** What the panels send and draw *)

Lemma lookup_kwarg_other (k v name : str) :
  k <> name -> PromptTemplate.lookup_kwarg [(k, v)] name = None.
Proof.
  intros Hne. unfold PromptTemplate.lookup_kwarg. cbn.
  now rewrite bool_decide_eq_false_2.
Qed.

Section MorePipeline.
Context `{Runtime}.

Lemma format_unknown_variable head name rest kwargs :
  plain_name name = true ->
  PromptTemplate.lookup_kwarg kwargs name = None ->
  PromptTemplate.format
    (PromptTemplate.Literal head :: PromptTemplate.Field name None [] :: rest)
    kwargs
  = Raise (KeyError (utf8 name)).
Proof.
  intros Hn Hk. unfold plain_name in Hn.
  apply andb_true_iff in Hn as [[Hs%negb_true_iff Hd]%andb_true_iff _].
  cbn [PromptTemplate.format]. unfold PromptTemplate.render_field.
  rewrite (PromptFacts.first_part_plain name Hs), Hd, Hk.
  destruct name; [discriminate | reflexivity].
Qed.

(** X10: [run_llm] fills in the variable [data] only.  On a template
    that the template library accepts and whose first replacement field is
    a plain variable name other than [data], [run_llm] fails with
    [KeyError] on that name; a template that the library refuses, which it
    decides on the whole template before anything is formatted, fails with
    the library's error.  In both cases the model is not invoked: nothing
    is sent and the page is unchanged. *)
Theorem run_llm_unknown_variable
    (head name tail : str) (data : DataFrame) (w : World) :
  (forall template : list PromptTemplate.piece,
     PromptTemplate.brace_free head = true ->
     plain_name name = true ->
     name <> py "data" ->
     PromptTemplate.from_template (head ++ [123] ++ name ++ [125] ++ tail)
       = Ok template ->
     run (run_llm (head ++ [123] ++ name ++ [125] ++ tail) data) w
     = (Raise (KeyError (utf8 name)), w))
  /\ (forall (prompt_template : str) (e : exn),
        PromptTemplate.from_template prompt_template = Raise e ->
        run (run_llm prompt_template data) w = (Raise e, w)).
Proof.
  split.
  - intros template Hh Hn Hne Ht. rewrite run_run_llm. unfold compose_prompt.
    rewrite Ht. cbn [mbind result_bind].
    assert (exists rest, template
              = PromptTemplate.Literal head
                  :: PromptTemplate.Field name None [] :: rest)
      as [rest ->].
    { pose proof Hn as Hn'. unfold plain_name in Hn'.
      apply andb_true_iff in Hn' as [[Hs%negb_true_iff _]%andb_true_iff Hb].
      unfold PromptTemplate.from_template in Ht.
      rewrite (PromptFacts.parse_leading_field head name tail Hh Hs Hb) in Ht.
      destruct (PromptTemplate.parse tail) as [rest|]; [|discriminate].
      cbn [mbind result_bind] in Ht.
      destruct (mapM _ _); [|discriminate]. cbn [mbind result_bind] in Ht.
      destruct (bool_decide _); [discriminate|].
      injection Ht as <-. now exists rest. }
    rewrite (format_unknown_variable head name rest _ Hn); [reflexivity|].
    apply lookup_kwarg_other. congruence.
  - intros t e Ht. rewrite run_run_llm. unfold compose_prompt.
    now rewrite Ht.
Qed.

(** X11: [trend_analysis] and [risk_analysis] each send one prompt, their
    template with the whole frame printed in place of [data].  If the
    model answers, the panel's heading and then the answer are drawn; if
    the invocation fails, the error is raised with the prompt sent and
    nothing drawn. *)
Theorem narrative_panels (financials : DataFrame) (w : World) :
  let trend :=
    PromptTemplate.before_field trend_prompt ++ to_string financials
      ++ PromptTemplate.after_field trend_prompt in
  let risk :=
    PromptTemplate.before_field risk_prompt ++ to_string financials
      ++ PromptTemplate.after_field risk_prompt in
  run (trend_analysis financials) w
  = match llm_answer w (length (llm_prompts w)) trend with
    | Returns analysis =>
        (Ok tt,
         with_element
           (with_element (with_prompt w trend) (Subheader trend_title))
           (Markdown analysis))
    | Throws cls => (Raise (LibraryError cls), with_prompt w trend)
    end
  /\ run (risk_analysis financials) w
     = match llm_answer w (length (llm_prompts w)) risk with
       | Returns risks =>
           (Ok tt,
            with_element
              (with_element (with_prompt w risk) (Subheader risk_title))
              (Markdown risks))
       | Throws cls => (Raise (LibraryError cls), with_prompt w risk)
       end.
Proof.
  intros trend risk.
  destruct (compose_prompt_program_templates financials) as (_ & Ht & Hr).
  split.
  - unfold trend_analysis. rewrite run_bind, run_run_llm, Ht. fold trend.
    destruct (llm_answer w (length (llm_prompts w)) trend); reflexivity.
  - unfold risk_analysis. rewrite run_bind, run_run_llm, Hr. fold risk.
    destruct (llm_answer w (length (llm_prompts w)) risk); reflexivity.
Qed.

(** X12: the steps of [financial_summary].  It asks the data source for
    the last four quarters of the symbol as of 2025-06-30.  If that request
    fails, or the derivation of the metrics fails, the error is raised and
    nothing is sent to the model or drawn.  Otherwise the summary prompt
    with the printed frame is sent; if the model fails the error is raised
    with nothing drawn; if it answers, the heading and the answer are drawn
    and the derived frame is returned. *)
Theorem financial_summary_steps (symbol : str) (w : World) :
  run (financial_summary symbol) w
  = match http_get w
            (BASE_URL ++ py "/" ++ py "financials/quarterly/" ++ symbol
               ++ py "/")
            [("n_quarters"%string, py "4");
             ("report_date"%string, py "2025-06-30")] with
    | Throws cls => (Raise (LibraryError cls), w)
    | Returns fetched =>
        match derive_metrics fetched with
        | Raise e => (Raise e, w)
        | Ok financials =>
            let prompt :=
              PromptTemplate.before_field summary_prompt
                ++ to_string financials
                ++ PromptTemplate.after_field summary_prompt in
            match llm_answer w (length (llm_prompts w)) prompt with
            | Throws cls => (Raise (LibraryError cls), with_prompt w prompt)
            | Returns summary =>
                (Ok financials,
                 with_element
                   (with_element (with_prompt w prompt)
                      (Subheader summary_title))
                   (Markdown summary))
            end
        end
    end.
Proof.
  unfold financial_summary. rewrite run_bind. unfold fetch_data. cbn [run].
  destruct (http_get w _ _) as [fetched|cls]; cbn [of_outcome]; [|reflexivity].
  rewrite run_bind, run_lift.
  destruct (derive_metrics fetched) as [financials|e]; [|reflexivity].
  destruct (compose_prompt_program_templates financials) as (Hs & _ & _).
  rewrite run_bind, run_run_llm, Hs.
  destruct (llm_answer w _ _); reflexivity.
Qed.

End MorePipeline.

Lemma run_llm_unknown_variable_witness :
  run (@run_llm Example.runtime (py "Ringkas kinerja {symbol} secara singkat.")
         Example.derived_quarters)
    (Example.session 4)
  = (Raise (KeyError "symbol"), Example.session 4).
Proof.
  apply (proj1 (@run_llm_unknown_variable Example.runtime
           (py "Ringkas kinerja ") (py "symbol") (py " secara singkat.")
           Example.derived_quarters (Example.session 4))
           [PromptTemplate.Literal (py "Ringkas kinerja ");
            PromptTemplate.Field (py "symbol") None [];
            PromptTemplate.Literal (py " secara singkat.")]).
  - reflexivity.
  - reflexivity.
  - vm_compute. discriminate.
  - vm_compute. reflexivity.
Defined.


Lemma length_with_prompt w p :
  length (llm_prompts (with_prompt w p)) = S (length (llm_prompts w)).
Proof. cbn. rewrite length_app. cbn. lia. Qed.

Lemma World_ext (w1 w2 : World) :
  http_get w1 = http_get w2 -> llm_answer w1 = llm_answer w2 ->
  llm_prompts w1 = llm_prompts w2 -> page w1 = page w2 -> w1 = w2.
Proof. destruct w1, w2. cbn. now intros -> -> -> ->. Qed.

Section SuccessPath.
Context `{Runtime}.

End SuccessPath.


(** ** The session only grows *)

Lemma extends_refl w : extends 0 0 w w.
Proof.
  repeat split; exists []; now rewrite app_nil_r.
Qed.

Lemma extends_trans n1 m1 n2 m2 w1 w2 w3 :
  extends n1 m1 w1 w2 -> extends n2 m2 w2 w3 ->
  extends (n1 + n2) (m1 + m2) w1 w3.
Proof.
  intros (Hh1 & Hl1 & (s1 & Hs1 & Hn1) & (d1 & Hd1 & Hm1))
         (Hh2 & Hl2 & (s2 & Hs2 & Hn2) & (d2 & Hd2 & Hm2)).
  repeat split; try congruence.
  - exists (s1 ++ s2). rewrite Hs2, Hs1, <- app_assoc, length_app.
    split; [reflexivity | lia].
  - exists (d1 ++ d2). rewrite Hd2, Hd1, <- app_assoc, length_app.
    split; [reflexivity | lia].
Qed.

Lemma extends_weaken n m n' m' w w' :
  extends n m w w' -> (n <= n')%nat -> (m <= m')%nat -> extends n' m' w w'.
Proof.
  intros (Hh & Hl & (s & Hs & Hn) & (d & Hd & Hm)) Hn' Hm'.
  repeat split; try assumption.
  - exists s. split; [exact Hs | lia].
  - exists d. split; [exact Hd | lia].
Qed.

(** A computation that, from any world, sends at most [n] prompts and
    draws at most [m] elements. *)
Lemma within_lift {A} (r : result A) : within 0 0 (lift r).
Proof. intros w. apply extends_refl. Qed.

Lemma within_ret {A} (a : A) : within 0 0 (mret a).
Proof. intros w. apply extends_refl. Qed.

Lemma within_draw e : within 0 1 (draw e).
Proof.
  intros w. cbn. repeat split.
  - exists []. now rewrite app_nil_r.
  - exists [e]. split; [reflexivity | cbn; lia].
Qed.

Lemma within_llm_invoke p : within 1 0 (llm_invoke p).
Proof.
  intros w. cbn. repeat split.
  - exists [p]. split; [reflexivity | cbn; lia].
  - exists []. now rewrite app_nil_r.
Qed.

Lemma within_fetch_data endpoint params : within 0 0 (fetch_data endpoint params).
Proof. intros w. apply extends_refl. Qed.

Lemma within_bind {A B} n1 m1 n2 m2 (c : M A) (f : A -> M B) :
  within n1 m1 c -> (forall a, within n2 m2 (f a)) ->
  within (n1 + n2) (m1 + m2) (c ≫= f).
Proof.
  intros Hc Hf w. rewrite run_bind. specialize (Hc w).
  destruct (run c w) as [[a|e] w1]; cbn [snd] in *.
  - eapply extends_trans; [exact Hc | apply Hf].
  - eapply extends_weaken; [exact Hc | lia | lia].
Qed.

Lemma within_weaken {A} n m n' m' (c : M A) :
  within n m c -> (n <= n')%nat -> (m <= m')%nat -> within n' m' c.
Proof. intros Hc Hn Hm w. eapply extends_weaken; eauto. Qed.

Section Growth.
Context `{Runtime}.

Lemma within_run_llm t d : within 1 0 (run_llm t d).
Proof.
  unfold run_llm.
  apply (within_bind 0 0 1 0); [apply within_lift|].
  intros p. apply within_llm_invoke.
Qed.

Lemma within_narrative t title d :
  within 1 2 (x ← run_llm t d; _ ← draw (Subheader title); draw (Markdown x)).
Proof.
  apply (within_bind 1 0 0 2); [apply within_run_llm|].
  intros x. apply (within_bind 0 1 0 1); [apply within_draw|].
  intros _. apply within_draw.
Qed.

Lemma within_financial_summary s : within 1 2 (financial_summary s).
Proof.
  unfold financial_summary.
  apply (within_bind 0 0 1 2); [apply within_fetch_data|]. intros recs.
  apply (within_bind 0 0 1 2); [apply within_lift|]. intros f.
  apply (within_bind 1 0 0 2); [apply within_run_llm|]. intros x.
  apply (within_bind 0 1 0 1); [apply within_draw|]. intros _.
  apply (within_bind 0 1 0 0); [apply within_draw|]. intros _.
  apply within_ret.
Qed.

Lemma within_st_plotly_chart v : within 0 1 (st_plotly_chart v).
Proof.
  destruct v; cbn;
    try apply within_draw;
    apply (within_weaken 0 0); try apply within_lift; lia.
Qed.

Lemma within_exec_figure n m code :
  (forall code globals locals w,
     extends n m w (python_exec code globals locals w).2) ->
  within n m (exec_figure code).
Proof.
  intros Hexec. unfold exec_figure.
  replace n with (n + 0)%nat by lia. replace m with (m + 0)%nat by lia.
  apply (within_bind n m 0 0); [|intros l; apply within_lift].
  intros w. unfold exec. cbn [run]. apply Hexec.
Qed.

Lemma within_revenue_trend n m s f :
  (forall code globals locals w,
     extends n m w (python_exec code globals locals w).2) ->
  within (1 + n) (2 + m) (revenue_trend s f).
Proof.
  intros Hexec. unfold revenue_trend.
  apply (within_bind 0 0 (1 + n) (2 + m)); [apply within_lift|].
  intros sample.
  apply (within_bind 1 0 n (2 + m)); [apply within_llm_invoke|]. intros raw.
  apply (within_bind 0 1 n (1 + m)); [apply within_draw|]. intros _.
  replace (1 + m)%nat with (m + 1)%nat by lia.
  replace n with (n + 0)%nat at 1 by lia.
  apply (within_bind n m 0 1); [now apply within_exec_figure|]. intros fig.
  apply within_st_plotly_chart.
Qed.

End Growth.


(** ** The company selector *)

Lemma starts_with_app_long pre : forall x y,
  (length pre <= length x)%nat ->
  starts_with pre (x ++ y) = starts_with pre x.
Proof.
  induction pre as [|p pre IH]; intros x y Hl; [reflexivity|].
  destruct x as [|c x]; cbn in Hl; [lia|].
  cbn. f_equal. apply IH. lia.
Qed.

Lemma split_scan_first sep s : forall cur,
  exists first rest,
    split_scan sep 0 cur s = first :: rest /\ first `prefix_of` cur ++ s.
Proof.
  induction s as [|c s IH]; intros cur; cbn [split_scan].
  - exists cur, []. now rewrite app_nil_r.
  - destruct (starts_with sep (c :: s)).
    + eexists cur, _. split; [reflexivity|]. now apply prefix_app_r.
    + destruct (IH (cur ++ [c])) as (first & rest & -> & Hp).
      exists first, rest. split; [reflexivity|].
      now rewrite <- app_assoc in Hp.
Qed.

Lemma selected_symbol_scan s :
  selected_symbol s
  = match split_scan (py " - ") 0 [] s with
    | first :: _ => Ok first
    | [] => Raise (LibraryError "IndexError")
    end.
Proof. reflexivity. Qed.

Lemma split_scan_before_separator name symbol : forall cur,
  contains (py " - ") (symbol ++ py " -") = false ->
  exists rest,
    split_scan (py " - ") 0 cur (symbol ++ py " - " ++ name)
    = (cur ++ symbol) :: rest.
Proof.
  induction symbol as [|c symbol IH]; intros cur Hc.
  - rewrite app_nil_r. cbn. eexists. reflexivity.
  - cbn [app contains] in Hc. apply orb_false_iff in Hc as [Hs Hc].
    cbn [app split_scan].
    assert (starts_with (py " - ") (c :: symbol ++ py " - " ++ name) = false)
      as ->.
    { etransitivity; [|exact Hs].
      change (c :: symbol ++ py " - " ++ name)
        with ((c :: symbol) ++ py " -" ++ (32 :: name)).
      rewrite app_assoc.
      apply (starts_with_app_long (py " - ") ((c :: symbol) ++ py " -")).
      rewrite length_app. cbn. lia. }
    destruct (IH (cur ++ [c]) Hc) as (rest & ->).
    exists rest. now rewrite <- app_assoc.
Qed.

(** X16: the symbol is read back from the selected option.  For a
    symbol in which [" - "] does not occur, also not across its end into
    the separator, [selected_symbol] returns exactly the symbol of the
    option built from it, whatever the company name is (even one that
    contains [" - "]).  In general [selected_symbol] never fails, and what
    it returns is a prefix of the selected text. *)
Theorem selected_symbol_reads_the_symbol_back :
  (forall symbol company_name : str,
     contains (py " - ") (symbol ++ py " -") = false ->
     selected_symbol (company_option symbol company_name) = Ok symbol)
  /\ (forall selected_company : str,
        exists first,
          selected_symbol selected_company = Ok first
          /\ first `prefix_of` selected_company).
Proof.
  split.
  - intros symbol name Hc. rewrite selected_symbol_scan.
    unfold company_option.
    destruct (split_scan_before_separator name symbol [] Hc) as (rest & ->).
    reflexivity.
  - intros s. rewrite selected_symbol_scan.
    destruct (split_scan_first (py " - ") s []) as (first & rest & -> & Hp).
    now exists first.
Qed.

Lemma selected_symbol_reads_the_symbol_back_witness :
  selected_symbol (company_option (py "BBCA") (py "Bank Central Asia - Tbk"))
  = Ok (py "BBCA").
Proof.
  apply (proj1 selected_symbol_reads_the_symbol_back). reflexivity.
Defined.
